(** * The OpenADAS resolver of cherab.openadas

    A shallow embedding of [cherab/openadas/openadas.py]: the class
    [OpenADAS], its nested configuration, and the seven query methods
    that map a physics query to a rate object or to a [RuntimeError]. *)

From stdpp Require Import base option list strings pretty countable gmap fin_maps.
From Stdlib Require Import Ascii QArith_base.

Local Open Scope Z_scope.
Local Open Scope string_scope.
Local Open Scope list_scope.

(** ** Species *)

(** Modelled from the spec: the species classes [Element] and [Isotope] of
    [cherab.core] are imported by the source and not part of it.  An isotope
    is an element plus a mass number and keeps a reference to its parent
    element; both carry a [symbol].  Python hashes the species objects
    themselves as dictionary keys; here two species are the same key when
    their fields agree. *)
Record Element := mkElement {
  element_name : string;
  element_symbol : string;
  atomic_number : Z
}.

Record Isotope := mkIsotope {
  isotope_name : string;
  isotope_symbol : string;
  element : Element;
  mass_number : Z
}.

Inductive Species :=
  | SElement (e : Element)
  | SIsotope (i : Isotope).

(** [ion.symbol] *)
Definition symbol (ion : Species) : string :=
  match ion with
  | SElement e => element_symbol e
  | SIsotope i => isotope_symbol i
  end.

(** The statement pair [if isinstance(ion, Isotope): ion = ion.element]
    that the rate methods run under the comment "extract element from
    isotope". *)
Definition extract_element (ion : Species) : Species :=
  match ion with
  | SElement e => SElement e
  | SIsotope i => SElement (element i)
  end.

Global Instance Element_eq_dec : EqDecision Element.
Proof. solve_decision. Defined.

Global Instance Isotope_eq_dec : EqDecision Isotope.
Proof. solve_decision. Defined.

Global Instance Species_eq_dec : EqDecision Species.
Proof. solve_decision. Defined.

Global Instance Element_countable : Countable Element.
Proof.
  apply (inj_countable'
           (λ e, (element_name e, element_symbol e, atomic_number e))
           (λ '(n, s, z), mkElement n s z)).
  by intros [].
Defined.

Global Instance Isotope_countable : Countable Isotope.
Proof.
  apply (inj_countable'
           (λ i, (isotope_name i, isotope_symbol i, element i, mass_number i))
           (λ '(n, s, e, m), mkIsotope n s e m)).
  by intros [].
Defined.

Global Instance Species_countable : Countable Species.
Proof.
  apply (inj_countable'
           (λ s, match s with SElement e => inl e | SIsotope i => inr i end)
           (λ x, match x with inl e => SElement e | inr i => SIsotope i end)).
  by intros [].
Defined.

(** ** Transitions and the configuration *)

(** A transition is the tuple (initial level, final level); the resolver
    uses it as a dictionary key and prints it in messages. *)
Definition Transition : Type := Z * Z.

(** A wavelength in nanometres, as the decimal the configuration states.
    The resolver never computes with it. *)
Definition Wavelength : Type := Q.

(** The nested dictionary [self._config].  Each field is one top-level key
    of the dictionary, [None] when the key is absent; below it the
    dictionaries nest as the source indexes them, down to the value the
    method reads: a wavelength, a file name, a (file name, block number)
    pair, or a list of (donor metastable, file name) pairs.  A dictionary
    may lack any key at any level. *)
Record Config := mkConfig {
  cfg_wavelength : option (gmap Species (gmap Z (gmap Transition Wavelength)));
  cfg_cxs : option (gmap Species (gmap Species (gmap Z (list (Z * string)))));
  cfg_bms : option (gmap Species (gmap Species (gmap Z string)));
  cfg_bmp : option (gmap Species (gmap Z (gmap Species (gmap Z string))));
  cfg_bme : option (gmap Species (gmap Species (gmap Z (gmap Transition string))));
  cfg_excitation : option (gmap Species (gmap Z (gmap Transition (string * Z))));
  cfg_recombination : option (gmap Species (gmap Z (gmap Transition (string * Z))))
}.

(** The state of an [OpenADAS] object. *)
Record OpenADAS := mkOpenADAS {
  _data_path : string;
  _config : Config;
  _permit_extrapolation : bool
}.

(** ** Exceptions *)

(** A value an exception can carry in its argument tuple. *)
Inductive PyArg :=
  | ArgStr (s : string)
  | ArgInt (z : Z)
  | ArgSpecies (s : Species)
  | ArgTransition (t : Transition).

(** A raised exception: its class and its [args] tuple. *)
Inductive Exception :=
  | Exc (class : string) (args : list PyArg).

Definition exc_args (e : Exception) : list PyArg :=
  match e with Exc _ args => args end.

(** [RuntimeError(msg)]: the message string is the only argument. *)
Definition RuntimeError (msg : string) : Exception :=
  Exc "RuntimeError" [ArgStr msg].

Inductive result (A : Type) :=
  | Ok (a : A)
  | Raise (e : Exception).

Arguments Ok {A} a.
Arguments Raise {A} e.

Definition bind {A B} (r : result A) (k : A → result B) : result B :=
  match r with
  | Ok a => k a
  | Raise e => Raise e
  end.

Notation "'let*' x ':=' r 'in' k" := (bind r (fun x => k))
  (at level 10, x pattern, r at level 100, k at level 200).

(** ** Message formatting *)

(** [str] of an integer. *)
Definition str_int (z : Z) : string := pretty z.

(** [str] of a two-element tuple of integers. *)
Definition str_transition (t : Transition) : string :=
  "(" +:+ str_int t.1 +:+ ", " +:+ str_int t.2 +:+ ")".

Definition wavelength_message (sym : string) (ionisation : Z)
    (transition : Transition) : string :=
  "The requested wavelength data for (" +:+ sym +:+ ", " +:+ str_int ionisation
  +:+ ", " +:+ str_transition transition +:+ ") is not available.".

(** ** [OpenADAS.wavelength] *)

(** [self._config["wavelength"][ion][ionisation][transition]];
    [None] is the [KeyError] of any of the four subscripts. *)
Definition config_wavelength (cfg : Config) (ion : Species) (ionisation : Z)
    (transition : Transition) : option Wavelength :=
  d ← cfg_wavelength cfg; d ← d !! ion; d ← d !! ionisation; d !! transition.

Definition wavelength (self : OpenADAS) (ion : Species) (ionisation : Z)
    (transition : Transition) : result Wavelength :=
  match config_wavelength (_config self) ion ionisation transition with
  | Some w => Ok w
  | None =>
      match ion with
      | SIsotope i =>
          let element := SElement (element i) in
          match config_wavelength (_config self) element ionisation transition with
          | Some w => Ok w
          | None =>
              Raise (RuntimeError (wavelength_message (symbol ion) ionisation transition))
          end
      | SElement _ =>
          Raise (RuntimeError (wavelength_message (symbol ion) ionisation transition))
      end
  end.

(** Neither subscript of [wavelength] finds an entry: the one for the
    species as passed, and the one for its element. *)
Definition wavelength_unresolved (cfg : Config) (ion : Species) (ionisation : Z)
    (transition : Transition) : Prop :=
  config_wavelength cfg ion ionisation transition = None
  ∧ config_wavelength cfg (extract_element ion) ionisation transition = None.

(** ** The configuration as shared dictionary objects *)

(** The query methods above read the configuration as a value.  The
    constructor and the [config] property copy it with [dict.copy], which
    makes a new top-level dictionary whose values are the same nested
    dictionary objects.  This module keeps the dictionaries in a store, so
    that two references to one nested dictionary see each other's writes. *)
Module Store.

(** The identity of a dictionary object. *)
Definition loc : Type := positive.

Inductive key :=
  | KStr (s : string)
  | KSpecies (s : Species)
  | KInt (z : Z)
  | KTuple (t : Transition).

(** A value stored under the [wavelength] branch: a nested dictionary,
    by reference, or a wavelength. *)
Inductive value :=
  | VDict (l : loc)
  | VFloat (w : Wavelength).

Global Instance key_eq_dec : EqDecision key.
Proof. solve_decision. Defined.

Global Instance key_countable : Countable key.
Proof.
  apply (inj_countable'
           (λ k, match k with
                 | KStr s => inl (inl s)
                 | KSpecies s => inl (inr s)
                 | KInt z => inr (inl z)
                 | KTuple t => inr (inr t)
                 end)
           (λ x, match x with
                 | inl (inl s) => KStr s
                 | inl (inr s) => KSpecies s
                 | inr (inl z) => KInt z
                 | inr (inr t) => KTuple t
                 end)).
  by intros [].
Defined.

Abbreviation heap := (gmap loc (gmap key value)).

Definition arg_of_key (k : key) : PyArg :=
  match k with
  | KStr s => ArgStr s
  | KSpecies s => ArgSpecies s
  | KInt z => ArgInt z
  | KTuple t => ArgTransition t
  end.

Definition KeyError (k : key) : Exception := Exc "KeyError" [arg_of_key k].

Definition TypeError : Exception :=
  Exc "TypeError" [ArgStr "'float' object is not subscriptable"].

(** A reference to no object; the interpreter never produces one. *)
Definition SystemError : Exception := Exc "SystemError" [].

(** [except KeyError] *)
Definition is_KeyError (e : Exception) : bool :=
  match e with Exc class _ => String.eqb class "KeyError" end.

(** [v[k]] *)
Definition getitem (h : heap) (v : value) (k : key) : result value :=
  match v with
  | VDict l =>
      match h !! l with
      | Some d =>
          match d !! k with
          | Some x => Ok x
          | None => Raise (KeyError k)
          end
      | None => Raise SystemError
      end
  | VFloat _ => Raise TypeError
  end.

(** [v[k] = x] *)
Definition setitem (h : heap) (v : value) (k : key) (x : value) : result heap :=
  match v with
  | VDict l =>
      match h !! l with
      | Some d => Ok (<[l := <[k := x]> d]> h)
      | None => Raise SystemError
      end
  | VFloat _ => Raise TypeError
  end.

(** [d.copy()]: a new dictionary object with the items of [d]; the values
    are not copied. *)
Definition dict_copy (h : heap) (l : loc) : loc * heap :=
  let l' := fresh (dom h) in
  (l', <[l' := default ∅ (h !! l)]> h).

Record OpenADAS := mkOpenADAS {
  _data_path : string;
  _config : loc;
  _permit_extrapolation : bool
}.

(** [OpenADAS.__init__], given a data path. *)
Definition __init__ (h : heap) (data_path : string) (config : loc)
    (permit_extrapolation : bool) : OpenADAS * heap :=
  let '(c, h') := dict_copy h config in
  (mkOpenADAS data_path c permit_extrapolation, h').

(** The [config] property. *)
Definition config (h : heap) (self : OpenADAS) : value * heap :=
  let '(c, h') := dict_copy h (_config self) in
  (VDict c, h').

(** [self._config["wavelength"][ion][ionisation][transition]] *)
Definition config_wavelength (h : heap) (self : OpenADAS) (ion : Species)
    (ionisation : Z) (transition : Transition) : result value :=
  let* d := getitem h (VDict (_config self)) (KStr "wavelength") in
  let* d := getitem h d (KSpecies ion) in
  let* d := getitem h d (KInt ionisation) in
  getitem h d (KTuple transition).

Definition wavelength (h : heap) (self : OpenADAS) (ion : Species)
    (ionisation : Z) (transition : Transition) : result value :=
  match config_wavelength h self ion ionisation transition with
  | Ok w => Ok w
  | Raise e =>
      if is_KeyError e then
        match ion with
        | SIsotope i =>
            match config_wavelength h self (SElement (element i)) ionisation transition with
            | Ok w => Ok w
            | Raise e' =>
                if is_KeyError e' then
                  Raise (RuntimeError (wavelength_message (symbol ion) ionisation transition))
                else Raise e'
            end
        | SElement _ =>
            Raise (RuntimeError (wavelength_message (symbol ion) ionisation transition))
        end
      else Raise e
  end.

(** The dictionaries reachable from [l] hold the wavelength branch [m] of
    a configuration value, level by level. *)
Definition holds_transitions (h : heap) (l : loc)
    (m : gmap Transition Wavelength) : Prop :=
  ∃ d, h !! l = Some d ∧ ∀ t, d !! KTuple t = VFloat <$> m !! t.

Definition holds_stages (h : heap) (l : loc)
    (m : gmap Z (gmap Transition Wavelength)) : Prop :=
  ∃ d, h !! l = Some d
       ∧ ∀ i, match m !! i with
              | Some m' => ∃ l', d !! KInt i = Some (VDict l') ∧ holds_transitions h l' m'
              | None => d !! KInt i = None
              end.

Definition holds_species (h : heap) (l : loc)
    (m : gmap Species (gmap Z (gmap Transition Wavelength))) : Prop :=
  ∃ d, h !! l = Some d
       ∧ ∀ ion, match m !! ion with
                | Some m' => ∃ l', d !! KSpecies ion = Some (VDict l') ∧ holds_stages h l' m'
                | None => d !! KSpecies ion = None
                end.

(** The dictionary object [l] is the configuration [cfg], as far as the
    key ["wavelength"] goes. *)
Definition holds_config (h : heap) (l : loc) (cfg : Config) : Prop :=
  ∃ d, h !! l = Some d
       ∧ match cfg_wavelength cfg with
         | Some m => ∃ l', d !! KStr "wavelength" = Some (VDict l') ∧ holds_species h l' m
         | None => d !! KStr "wavelength" = None
         end.

(** A caller's statement [c["wavelength"][ion][ionisation][transition] = w]
    on a dictionary [c] it holds. *)
Definition assign_wavelength (h : heap) (c : value) (ion : Species)
    (ionisation : Z) (transition : Transition) (w : Wavelength) : result heap :=
  let* d := getitem h c (KStr "wavelength") in
  let* d := getitem h d (KSpecies ion) in
  let* d := getitem h d (KInt ionisation) in
  setitem h d (KTuple transition) (VFloat w).

End Store.

(** Every dictionary that a dictionary of the store refers to is in the
    store, as it is for the objects of a running program. *)
Definition store_closed (h : Store.heap) : Prop :=
  ∀ l d k l', h !! l = Some d → d !! k = Some (Store.VDict l') → is_Some (h !! l').

(** A value that refers to a dictionary refers to one of the store. *)
Definition value_in_store (h : Store.heap) (v : Store.value) : Prop :=
  match v with
  | Store.VDict l => is_Some (h !! l)
  | Store.VFloat _ => True
  end.

(** Every dictionary of [h] reads the same in [h']. *)
Definition store_agree (h h' : Store.heap) : Prop :=
  ∀ l k, is_Some (h !! l) →
         Store.getitem h' (Store.VDict l) k = Store.getitem h (Store.VDict l) k.

(** ** Paths *)

(** [s.endswith("/")] *)
Fixpoint endswith_sep (s : string) : bool :=
  match s with
  | EmptyString => false
  | String c EmptyString => Ascii.eqb c "/"%char
  | String _ s' => endswith_sep s'
  end.

(** [os.path.join(a, b)] on a POSIX system: an absolute [b] replaces [a];
    otherwise the two are joined by one separator, which is left out when
    [a] is empty or already ends with it. *)
Definition path_join (a b : string) : string :=
  if String.prefix "/" b then b
  else if bool_decide (a = "") || endswith_sep a then a +:+ b
  else a +:+ "/" +:+ b.

(** ** The remaining messages *)

Definition cxs_message (donor receiver : string) (ionisation : Z)
    (transition : Transition) : string :=
  "The requested beam cx rate data does not have an entry in the Open-ADAS configuration"
  +:+ "(donor ion: " +:+ donor +:+ ", receiver ion: " +:+ receiver
  +:+ ", ionisation: " +:+ str_int ionisation
  +:+ ", transition: " +:+ str_transition transition +:+ ").".

Definition bms_message (beam plasma : string) (ionisation : Z) : string :=
  "The requested beam stopping rate data does not have an entry in the Open-ADAS "
  +:+ "configuration (beam ion: " +:+ beam +:+ ", plasma ion: " +:+ plasma
  +:+ ", ionisation: " +:+ str_int ionisation +:+ ").".

Definition bmp_message (beam : string) (metastable : Z) (plasma : string)
    (ionisation : Z) : string :=
  "The requested beam population rate data does not have an entry in the "
  +:+ "Open-ADAS configuration (beam ion: " +:+ beam
  +:+ ", metastable: " +:+ str_int metastable
  +:+ ", plasma ion: " +:+ plasma
  +:+ ", ionisation: " +:+ str_int ionisation +:+ ").".

Definition bme_message (beam plasma : string) (ionisation : Z)
    (transition : Transition) : string :=
  "The requested beam emission rate data does not have an entry in the "
  +:+ "Open-ADAS configuration (beam ion: " +:+ beam +:+ ", plasma ion: " +:+ plasma
  +:+ ", ionisation: " +:+ str_int ionisation
  +:+ ", transition: " +:+ str_transition transition +:+ ").".

Definition excitation_message (ion : string) (ionisation : Z)
    (transition : Transition) : string :=
  "The requested impact excitation rate data does not have an entry in the "
  +:+ "Open-ADAS configuration (ion: " +:+ ion
  +:+ ", ionisation: " +:+ str_int ionisation
  +:+ ", transition: " +:+ str_transition transition +:+ ").".

Definition recombination_message (ion : string) (ionisation : Z)
    (transition : Transition) : string :=
  "The requested recombination rate data does not have an entry in the "
  +:+ "Open-ADAS configuration (ion: " +:+ ion
  +:+ ", ionisation: " +:+ str_int ionisation
  +:+ ", transition: " +:+ str_transition transition +:+ ").".

(** [part] occurs in [msg]. *)
Definition mentions (msg part : string) : Prop :=
  ∃ pre post, msg = pre +:+ part +:+ post.

(** The exception carries the value [p] as an argument of its own, next to
    or instead of a message. *)
Definition carries (e : Exception) (p : PyArg) : Prop := p ∈ exc_args e.

(** The exception is a [RuntimeError] whose only argument is a message,
    and the message names every one of [parts]. *)
Definition message_only (e : Exception) (parts : list string) : Prop :=
  ∃ msg, e = Exc "RuntimeError" [ArgStr msg] ∧ Forall (mentions msg) parts.

(** The characters [str] of an integer is made of. *)
Definition numeric_char (c : ascii) : bool :=
  existsb (Ascii.eqb c) ["0"; "1"; "2"; "3"; "4"; "5"; "6"; "7"; "8"; "9"; "-"]%char.

Fixpoint numeric (s : string) : bool :=
  match s with
  | EmptyString => true
  | String c s' => numeric_char c && numeric s'
  end.

(** ** The remaining configuration subscripts *)

(** [self._config["cxs"][donor_ion][receiver_ion][receiver_ionisation]] *)
Definition config_cxs (cfg : Config) (donor_ion receiver_ion : Species)
    (receiver_ionisation : Z) : option (list (Z * string)) :=
  d ← cfg_cxs cfg; d ← d !! donor_ion; d ← d !! receiver_ion; d !! receiver_ionisation.

(** [self._config["bms"][beam_ion][plasma_ion][ionisation]] *)
Definition config_bms (cfg : Config) (beam_ion plasma_ion : Species)
    (ionisation : Z) : option string :=
  d ← cfg_bms cfg; d ← d !! beam_ion; d ← d !! plasma_ion; d !! ionisation.

(** [self._config["bmp"][beam_ion][metastable][plasma_ion][ionisation]] *)
Definition config_bmp (cfg : Config) (beam_ion : Species) (metastable : Z)
    (plasma_ion : Species) (ionisation : Z) : option string :=
  d ← cfg_bmp cfg; d ← d !! beam_ion; d ← d !! metastable; d ← d !! plasma_ion;
  d !! ionisation.

(** [self._config["bme"][beam_ion][plasma_ion][ionisation][transition]] *)
Definition config_bme (cfg : Config) (beam_ion plasma_ion : Species)
    (ionisation : Z) (transition : Transition) : option string :=
  d ← cfg_bme cfg; d ← d !! beam_ion; d ← d !! plasma_ion; d ← d !! ionisation;
  d !! transition.

(** [self._config["excitation"][ion][ionisation][transition]] *)
Definition config_excitation (cfg : Config) (ion : Species) (ionisation : Z)
    (transition : Transition) : option (string * Z) :=
  d ← cfg_excitation cfg; d ← d !! ion; d ← d !! ionisation; d !! transition.

(** [self._config["recombination"][ion][ionisation][transition]] *)
Definition config_recombination (cfg : Config) (ion : Species) (ionisation : Z)
    (transition : Transition) : option (string * Z) :=
  d ← cfg_recombination cfg; d ← d !! ion; d ← d !! ionisation; d !! transition.

(** ** Rate objects and the query methods *)

(** Modelled from the spec: the rate classes of [cherab.openadas.rates] are
    imported by the source and not part of it.  A rate object is a value
    built from the tabulated data of one file, the wavelength and donor
    metastable level where the kind has them, and the extrapolation flag;
    a constructor records the arguments of the call in the order the
    source passes them. *)
Inductive Rate (Curve Surface : Type) :=
  | BeamCXRate (donor_metastable : Z) (wavelength : Wavelength) (data : Curve) (extrapolate : bool)
  | BeamStoppingRate (data : Surface) (extrapolate : bool)
  | BeamPopulationRate (data : Surface) (extrapolate : bool)
  | BeamEmissionRate (data : Surface) (wavelength : Wavelength) (extrapolate : bool)
  | ImpactExcitationRate (wavelength : Wavelength) (data : Curve) (extrapolate : bool)
  | RecombinationRate (wavelength : Wavelength) (data : Curve) (extrapolate : bool).

Arguments BeamCXRate {Curve Surface}.
Arguments BeamStoppingRate {Curve Surface}.
Arguments BeamPopulationRate {Curve Surface}.
Arguments BeamEmissionRate {Curve Surface}.
Arguments ImpactExcitationRate {Curve Surface}.
Arguments RecombinationRate {Curve Surface}.

(** The donor metastable level a charge-exchange rate is tagged with. *)
Definition rate_metastable {Curve Surface} (r : Rate Curve Surface) : option Z :=
  match r with
  | BeamCXRate m _ _ _ => Some m
  | _ => None
  end.

(** The wavelength a rate object was built with. *)
Definition rate_wavelength {Curve Surface} (r : Rate Curve Surface) : option Wavelength :=
  match r with
  | BeamCXRate _ w _ _ | BeamEmissionRate _ w _
  | ImpactExcitationRate w _ _ | RecombinationRate w _ _ => Some w
  | BeamStoppingRate _ _ | BeamPopulationRate _ _ => None
  end.

(** The extrapolation flag a rate object was built with. *)
Definition rate_extrapolate {Curve Surface} (r : Rate Curve Surface) : bool :=
  match r with
  | BeamCXRate _ _ _ x | BeamStoppingRate _ x | BeamPopulationRate _ x
  | BeamEmissionRate _ _ x | ImpactExcitationRate _ _ x | RecombinationRate _ _ x => x
  end.

(** The object [self] with another dictionary under the key ["bms"]. *)
Definition with_bms (self : OpenADAS) (bms : gmap Species (gmap Species (gmap Z string)))
    : OpenADAS :=
  let cfg := _config self in
  mkOpenADAS (_data_path self)
    (mkConfig (cfg_wavelength cfg) (cfg_cxs cfg) (Some bms) (cfg_bmp cfg) (cfg_bme cfg)
       (cfg_excitation cfg) (cfg_recombination cfg))
    (_permit_extrapolation self).

(** ** The constructor and the data directory *)

Section DataPath.

(** The file system is the operating system's: [FS] is its state, and the
    three functions of [os] and [os.path] that the source calls are taken
    as they are.  [makedirs] returns the state it leaves, also when it
    raises. *)
Context {FS : Type}.
Variable expanduser : string → string.
Variable isdir : FS → string → bool.
Variable makedirs : FS → string → result unit * FS.

(** A statement that may change the file system, followed by the rest. *)
Definition and_then {A B} (r : result A * FS) (k : A → FS → result B * FS)
    : result B * FS :=
  match r with
  | (Ok a, fs) => k a fs
  | (Raise e, fs) => (Raise e, fs)
  end.

Definition _setup_data_path (fs : FS) : result string * FS :=
  let data_path := expanduser "~/.cherab/openadas" in
  if isdir fs data_path then (Ok data_path, fs)
  else
    and_then (makedirs fs data_path) (λ _ fs,
    and_then (makedirs fs (path_join data_path "adf12")) (λ _ fs,
    and_then (makedirs fs (path_join data_path "adf15")) (λ _ fs,
    and_then (makedirs fs (path_join data_path "adf21")) (λ _ fs,
    and_then (makedirs fs (path_join data_path "adf22")) (λ _ fs,
    (Ok data_path, fs)))))).

(** [OpenADAS.__init__]: [data_path] is [None] when the argument is left
    out; [data_path or ...] takes the set-up branch for [None] and for the
    empty string.  The copy of [config] is the configuration value. *)
Definition __init__ (fs : FS) (data_path : option string) (config : Config)
    (permit_extrapolation : bool) : result OpenADAS * FS :=
  and_then
    (match data_path with
     | Some (String c p) => (Ok (String c p), fs)
     | Some EmptyString | None => _setup_data_path fs
     end)
    (λ data_path fs, (Ok (mkOpenADAS data_path config permit_extrapolation), fs)).

End DataPath.

(** The [data_path] property. *)
Definition data_path (self : OpenADAS) : string := _data_path self.

(** ** Species, configurations and readers of the examples *)

Definition carbon : Element := mkElement "carbon" "C" 6.
Definition hydrogen : Element := mkElement "hydrogen" "H" 1.
Definition carbon12 : Isotope := mkIsotope "carbon12" "C12" carbon 12.
Definition deuterium : Isotope := mkIsotope "deuterium" "D" hydrogen 2.

Definition empty_config : Config :=
  mkConfig None None None None None None None.

Local Abbreviation w529_1 := (Qmake 5291 10).
Local Abbreviation w529_0 := (Qmake 5290 10).

(** [wavelength[carbon][5][(8, 7)] = 529.1] *)
Definition wavelength_c5 : gmap Species (gmap Z (gmap Transition Wavelength)) :=
  {[ SElement carbon := {[ 5 := {[ (8, 7) := w529_1 ]} ]} ]}.

(** As [wavelength_c5], with an entry for the isotope carbon-12 as well. *)
Definition wavelength_c5_c12 : gmap Species (gmap Z (gmap Transition Wavelength)) :=
  <[ SIsotope carbon12 := {[ 5 := {[ (8, 7) := w529_0 ]} ]} ]> wavelength_c5.

(** [wavelength[hydrogen][0][(3, 2)] = 656.28] *)
Definition wavelength_h0 : gmap Species (gmap Z (gmap Transition Wavelength)) :=
  {[ SElement hydrogen := {[ 0 := {[ (3, 2) := Qmake 65628 100 ]} ]} ]}.

(** [cxs[hydrogen][carbon][6] = [(1, "file_a.dat"), (2, "file_b.dat")]] *)
Definition cxs_h_c6 : gmap Species (gmap Species (gmap Z (list (Z * string)))) :=
  {[ SElement hydrogen :=
       {[ SElement carbon := {[ 6 := [(1, "file_a.dat"); (2, "file_b.dat")] ]} ]} ]}.


Definition bms_h_c6 : gmap Species (gmap Species (gmap Z string)) :=
  {[ SElement hydrogen := {[ SElement carbon := {[ 6 := "bms.dat" ]} ]} ]}.

Definition bmp_h2_c6 : gmap Species (gmap Z (gmap Species (gmap Z string))) :=
  {[ SElement hydrogen := {[ 2 := {[ SElement carbon := {[ 6 := "bmp.dat" ]} ]} ]} ]}.

Definition bme_h_c6 : gmap Species (gmap Species (gmap Z (gmap Transition string))) :=
  {[ SElement hydrogen :=
       {[ SElement carbon := {[ 6 := {[ (3, 2) := "bme.dat" ]} ]} ]} ]}.

Definition blocks_c5 : gmap Species (gmap Z (gmap Transition (string * Z))) :=
  {[ SElement carbon := {[ 5 := {[ (8, 7) := ("pec.dat", 3) ]} ]} ]}.

(** Only the wavelength of the scenario. *)
Definition adas_wavelength : OpenADAS :=
  mkOpenADAS "/data"
    (mkConfig (Some wavelength_c5) None None None None None None) false.

(** The wavelengths of carbon and hydrogen, and no rate branch. *)
Definition adas_wavelengths : OpenADAS :=
  mkOpenADAS "/data"
    (mkConfig (Some (wavelength_c5 ∪ wavelength_h0)) None None None None None None) false.

(** Only the charge-exchange files of the scenario; no wavelength. *)
Definition adas_cxs_only : OpenADAS :=
  mkOpenADAS "/data"
    (mkConfig None (Some cxs_h_c6) None None None None None) false.


(** Every branch filled, all species keys elements. *)
Definition adas_full : OpenADAS :=
  mkOpenADAS "/data"
    (mkConfig (Some (wavelength_c5 ∪ wavelength_h0)) (Some cxs_h_c6) (Some bms_h_c6)
       (Some bmp_h2_c6) (Some bme_h_c6) (Some blocks_c5) (Some blocks_c5))
    true.

(** As [adas_full], with the carbon-12 wavelength entry added. *)
Definition adas_isotope_wavelength : OpenADAS :=
  mkOpenADAS "/data"
    (mkConfig (Some (wavelength_c5_c12 ∪ wavelength_h0)) (Some cxs_h_c6) (Some bms_h_c6)
       (Some bmp_h2_c6) (Some bme_h_c6) (Some blocks_c5) (Some blocks_c5))
    true.

Definition adas_empty : OpenADAS := mkOpenADAS "/data" empty_config false.

(** Readers that stand for files that load: the data is the request. *)
Inductive FileCurve :=
  | Adf12Data (path : string) (transition : Transition)
  | Adf15Data (path : string) (block_number : Z).

Inductive FileSurface :=
  | Adf21Data (path : string)
  | Adf22Data (path : string).

Definition read_adf12 (path : string) (transition : Transition) : result FileCurve :=
  Ok (Adf12Data path transition).

Definition read_adf15 (path : string) (block_number : Z) : result FileCurve :=
  Ok (Adf15Data path block_number).

Definition read_adf21 (path : string) : result FileSurface := Ok (Adf21Data path).

Definition read_adf22 (path : string) : result FileSurface := Ok (Adf22Data path).


(** The store of the scenario: the four nested dictionaries of
    [{"wavelength": {carbon: {5: {(8, 7): 529.1}}}}]. *)
Definition store_c5 : Store.heap :=
  {[ 1%positive := {[ Store.KStr "wavelength" := Store.VDict 2%positive ]};
     2%positive := {[ Store.KSpecies (SElement carbon) := Store.VDict 3%positive ]};
     3%positive := {[ Store.KInt 5 := Store.VDict 4%positive ]};
     4%positive := {[ Store.KTuple (8, 7) := Store.VFloat (Qmake 5291 10) ]} ]}.

(** An object built on [store_c5] and a caller that reads [config] and assigns
    [0] to the carbon entry through it: what [wavelength] answers after the
    call of [config], and what it answers after the assignment. *)
Definition config_write_scenario : result Store.value * result Store.value :=
  let '(self, h) := Store.__init__ store_c5 "/data" 1%positive false in
  let '(c, h1) := Store.config h self in
  (Store.wavelength h1 self (SElement carbon) 5 (8, 7),
   let* h2 := Store.assign_wavelength h1 c (SElement carbon) 5 (8, 7) (Qmake 0 1) in
   Store.wavelength h2 self (SElement carbon) 5 (8, 7)).

(** Readers on a data directory without the files. *)
Definition absent_adf15 (path : string) (block_number : Z) : result FileCurve :=
  Raise (Exc "FileNotFoundError" [ArgStr path]).

Definition absent_adf21 (path : string) : result FileSurface :=
  Raise (Exc "FileNotFoundError" [ArgStr path]).

Definition absent_adf22 (path : string) : result FileSurface :=
  Raise (Exc "FileNotFoundError" [ArgStr path]).

(** A reader on a data directory that lacks [file_b.dat]. *)
Definition file_b_absent_adf12 (path : string) (transition : Transition)
    : result FileCurve :=
  if String.eqb path "/data/file_b.dat"
  then Raise (Exc "FileNotFoundError" [ArgStr path])
  else Ok (Adf12Data path transition).

(** The wavelengths, and a charge-exchange entry with no files. *)
Definition adas_cxs_no_files : OpenADAS :=
  mkOpenADAS "/data"
    (mkConfig (Some wavelength_c5)
       (Some {[ SElement hydrogen := {[ SElement carbon := {[ 6 := [] ]} ]} ]})
       None None None None None) false.


(** A store whose configuration has a number under ["wavelength"]. *)
Definition store_malformed : Store.heap :=
  {[ 1%positive := {[ Store.KStr "wavelength" := Store.VFloat w529_1 ]} ]}.

(** A file system as the list of its directories, for a user whose home is
    [/home/user]. *)
Definition home_expanduser (path : string) : string :=
  match path with
  | String c rest => if Ascii.eqb c "~" then "/home/user" +:+ rest else path
  | EmptyString => path
  end.

Definition list_isdir (fs : list string) (path : string) : bool :=
  existsb (String.eqb path) fs.

Definition list_makedirs (fs : list string) (path : string) : result unit * list string :=
  if list_isdir fs path then (Raise (Exc "FileExistsError" [ArgStr path]), fs)
  else (Ok (), path :: fs).

(** As [list_makedirs], on a volume with room for [n] directories. *)
Definition quota_makedirs (n : nat) (fs : list string) (path : string)
    : result unit * list string :=
  if (n <=? length fs)%nat then (Raise (Exc "OSError" [ArgStr path]), fs)
  else list_makedirs fs path.

Section Resolver.

(** The format readers of [cherab.openadas.read] are imported by the
    source; a reader returns tabulated data or raises. *)
Context {Curve Surface : Type}.
Variable adf12 : string → Transition → result Curve.
Variable adf15 : string → Z → result Curve.
Variable adf21 : string → result Surface.
Variable adf22 : string → result Surface.

Local Abbreviation Rate := (Rate Curve Surface).

(** The loop of [beam_cx_rate] over the configured pairs; [rates] is the
    list the loop appends to. *)
Fixpoint beam_cx_rate_loop (self : OpenADAS) (wavelength : Wavelength)
    (transition : Transition) (data : list (Z * string)) (rates : list Rate)
    : result (list Rate) :=
  match data with
  | [] => Ok rates
  | (donor_metastable, filename) :: data' =>
      let file_path := path_join (_data_path self) filename in
      let* curve := adf12 file_path transition in
      beam_cx_rate_loop self wavelength transition data'
        (rates ++ [BeamCXRate donor_metastable wavelength curve (_permit_extrapolation self)])
  end.

Definition beam_cx_rate (self : OpenADAS) (donor_ion receiver_ion : Species)
    (receiver_ionisation : Z) (transition : Transition) : result (list Rate) :=
  let* wavelength := wavelength self receiver_ion (receiver_ionisation - 1) transition in
  let donor_ion := extract_element donor_ion in
  let receiver_ion := extract_element receiver_ion in
  match config_cxs (_config self) donor_ion receiver_ion receiver_ionisation with
  | None =>
      Raise (RuntimeError (cxs_message (symbol donor_ion) (symbol receiver_ion)
                             receiver_ionisation transition))
  | Some data => beam_cx_rate_loop self wavelength transition data []
  end.

Definition beam_stopping_rate (self : OpenADAS) (beam_ion plasma_ion : Species)
    (ionisation : Z) : result Rate :=
  let beam_ion := extract_element beam_ion in
  let plasma_ion := extract_element plasma_ion in
  match config_bms (_config self) beam_ion plasma_ion ionisation with
  | None =>
      Raise (RuntimeError (bms_message (symbol beam_ion) (symbol plasma_ion) ionisation))
  | Some filename =>
      let* data := adf21 (path_join (_data_path self) filename) in
      Ok (BeamStoppingRate data (_permit_extrapolation self))
  end.

Definition beam_population_rate (self : OpenADAS) (beam_ion : Species) (metastable : Z)
    (plasma_ion : Species) (ionisation : Z) : result Rate :=
  let beam_ion := extract_element beam_ion in
  let plasma_ion := extract_element plasma_ion in
  match config_bmp (_config self) beam_ion metastable plasma_ion ionisation with
  | None =>
      Raise (RuntimeError (bmp_message (symbol beam_ion) metastable
                             (symbol plasma_ion) ionisation))
  | Some filename =>
      let* data := adf22 (path_join (_data_path self) filename) in
      Ok (BeamPopulationRate data (_permit_extrapolation self))
  end.

Definition beam_emission_rate (self : OpenADAS) (beam_ion plasma_ion : Species)
    (ionisation : Z) (transition : Transition) : result Rate :=
  let* wavelength := wavelength self beam_ion 0 transition in
  let beam_ion := extract_element beam_ion in
  let plasma_ion := extract_element plasma_ion in
  match config_bme (_config self) beam_ion plasma_ion ionisation transition with
  | None =>
      Raise (RuntimeError (bme_message (symbol beam_ion) (symbol plasma_ion)
                             ionisation transition))
  | Some filename =>
      let* data := adf22 (path_join (_data_path self) filename) in
      Ok (BeamEmissionRate data wavelength (_permit_extrapolation self))
  end.

Definition impact_excitation_rate (self : OpenADAS) (ion : Species) (ionisation : Z)
    (transition : Transition) : result Rate :=
  let* wavelength := wavelength self ion ionisation transition in
  let ion := extract_element ion in
  match config_excitation (_config self) ion ionisation transition with
  | None =>
      Raise (RuntimeError (excitation_message (symbol ion) ionisation transition))
  | Some (filename, block_number) =>
      let* data := adf15 (path_join (_data_path self) filename) block_number in
      Ok (ImpactExcitationRate wavelength data (_permit_extrapolation self))
  end.

Definition recombination_rate (self : OpenADAS) (ion : Species) (ionisation : Z)
    (transition : Transition) : result Rate :=
  let* wavelength := wavelength self ion ionisation transition in
  let ion := extract_element ion in
  match config_recombination (_config self) ion ionisation transition with
  | None =>
      Raise (RuntimeError (recombination_message (symbol ion) ionisation transition))
  | Some (filename, block_number) =>
      let* data := adf15 (path_join (_data_path self) filename) block_number in
      Ok (RecombinationRate wavelength data (_permit_extrapolation self))
  end.


(** What the loop builds from one configured pair. *)
Definition cx_entry_rate (self : OpenADAS) (w : Wavelength) (transition : Transition)
    (entry : Z * string) (r : Rate) : Prop :=
  ∃ curve, adf12 (path_join (_data_path self) entry.2) transition = Ok curve
           ∧ r = BeamCXRate entry.1 w curve (_permit_extrapolation self).

(** ** Properties of [wavelength] *)

Lemma wavelength_direct self ion ionisation transition w :
  config_wavelength (_config self) ion ionisation transition = Some w →
  wavelength self ion ionisation transition = Ok w.
Proof. intros H. unfold wavelength. by rewrite H. Qed.

Lemma wavelength_fallback self iso ionisation transition w :
  config_wavelength (_config self) (SIsotope iso) ionisation transition = None →
  config_wavelength (_config self) (SElement (element iso)) ionisation transition = Some w →
  wavelength self (SIsotope iso) ionisation transition = Ok w.
Proof. intros H1 H2. unfold wavelength. by rewrite H1, H2. Qed.

Lemma wavelength_miss self ion ionisation transition :
  config_wavelength (_config self) ion ionisation transition = None →
  config_wavelength (_config self) (extract_element ion) ionisation transition = None →
  wavelength self ion ionisation transition
  = Raise (RuntimeError (wavelength_message (symbol ion) ionisation transition)).
Proof.
  intros H1 H2. unfold wavelength. rewrite H1.
  destruct ion as [e|iso]; simpl in *; [done|]. by rewrite H2.
Qed.

(** Whatever the configuration, [wavelength] returns a value or raises
    its own error. *)
Lemma wavelength_cases self ion ionisation transition :
  (∃ w, wavelength self ion ionisation transition = Ok w) ∨
  wavelength self ion ionisation transition
  = Raise (RuntimeError (wavelength_message (symbol ion) ionisation transition)).
Proof.
  unfold wavelength.
  destruct (config_wavelength _ ion _ _); [by eauto|].
  destruct ion as [e|iso]; [by right|].
  destruct (config_wavelength _ _ _ _); by eauto.
Qed.

(** C1: for an isotope with no wavelength entry of its own and an entry
    under its parent element, [wavelength] returns the element's value.
    The direct subscript is tried first: a direct hit is returned for any
    species, whatever the element's entry; and a species that is an
    element gets no retry after a direct miss. *)
Theorem wavelength_isotope_uses_element_entry self iso ionisation transition w :
  config_wavelength (_config self) (SIsotope iso) ionisation transition = None →
  config_wavelength (_config self) (SElement (element iso)) ionisation transition = Some w →
  wavelength self (SIsotope iso) ionisation transition = Ok w
  ∧ (∀ ion w', config_wavelength (_config self) ion ionisation transition = Some w' →
               wavelength self ion ionisation transition = Ok w')
  ∧ (∀ e, config_wavelength (_config self) (SElement e) ionisation transition = None →
          wavelength self (SElement e) ionisation transition
          = Raise (RuntimeError (wavelength_message (element_symbol e) ionisation transition))).
Proof.
  intros Hiso Helem. split_and!.
  - by apply wavelength_fallback.
  - intros ion w'. apply wavelength_direct.
  - intros e He. by apply (wavelength_miss self (SElement e)).
Qed.

(** ** Properties of [beam_cx_rate] *)

Lemma beam_cx_rate_loop_Ok self w transition data rates out :
  beam_cx_rate_loop self w transition data rates = Ok out →
  ∃ new, out = rates ++ new ∧ Forall2 (cx_entry_rate self w transition) data new.
Proof.
  revert rates. induction data as [|[m f] data IH]; intros rates Hloop; simpl in Hloop.
  - exists []. split; [|constructor]. rewrite app_nil_r. congruence.
  - destruct (adf12 _ _) as [curve|e] eqn:Hread; simpl in Hloop; [|discriminate].
    apply IH in Hloop as (new & -> & Hnew).
    exists (BeamCXRate m w curve (_permit_extrapolation self) :: new). split.
    + by rewrite <- app_assoc.
    + constructor; [|done]. exists curve. by split.
Qed.


(** The first reader that raises ends the loop with its exception. *)
Lemma beam_cx_rate_loop_Raise self w transition data1 m f data2 rates e :
  (∀ m' f', (m', f') ∈ data1 →
            ∃ curve, adf12 (path_join (_data_path self) f') transition = Ok curve) →
  adf12 (path_join (_data_path self) f) transition = Raise e →
  beam_cx_rate_loop self w transition (data1 ++ (m, f) :: data2) rates = Raise e.
Proof.
  revert rates. induction data1 as [|[m1 f1] data1 IH]; intros rates Hread He; simpl.
  - by rewrite He.
  - destruct (Hread m1 f1) as [curve ->]; [by left|]. simpl.
    apply IH; [|done]. intros m' f' Hin. apply (Hread m' f'). by right.
Qed.

Lemma beam_cx_rate_Ok self donor_ion receiver_ion receiver_ionisation transition rates :
  beam_cx_rate self donor_ion receiver_ion receiver_ionisation transition = Ok rates →
  ∃ w data,
    wavelength self receiver_ion (receiver_ionisation - 1) transition = Ok w
    ∧ config_cxs (_config self) (extract_element donor_ion) (extract_element receiver_ion)
        receiver_ionisation = Some data
    ∧ Forall2 (cx_entry_rate self w transition) data rates.
Proof.
  unfold beam_cx_rate. intros H.
  destruct (wavelength _ _ _ _) as [w|e]; simpl in H; [|discriminate].
  destruct (config_cxs _ _ _ _) as [data|]; [|discriminate].
  apply beam_cx_rate_loop_Ok in H as (new & -> & Hnew).
  by exists w, data.
Qed.


(** C6: [beam_cx_rate] resolves the wavelength of the receiver, as passed,
    at [receiver_ionisation - 1] before anything else: when that call
    raises, [beam_cx_rate] raises the same exception, whatever the donor,
    the [cxs] branch and the readers are; the exception is the one
    [wavelength] formats for the receiver as passed and the stage before
    capture. *)
Theorem beam_cx_rate_wavelength_first
    self donor_ion receiver_ion receiver_ionisation transition e :
  wavelength self receiver_ion (receiver_ionisation - 1) transition = Raise e →
  beam_cx_rate self donor_ion receiver_ion receiver_ionisation transition = Raise e
  ∧ e = RuntimeError (wavelength_message (symbol receiver_ion) (receiver_ionisation - 1)
                        transition).
Proof.
  intros H. split.
  - unfold beam_cx_rate. by rewrite H.
  - destruct (wavelength_cases self receiver_ion (receiver_ionisation - 1) transition)
      as [[w Hw]|Hw]; congruence.
Qed.

(** C10: [beam_cx_rate] looks the wavelength up for the receiver as
    passed.  For a receiver isotope every returned rate carries the
    isotope's own wavelength entry when the configuration has one, and the
    parent element's entry only when the isotope has none. *)
Theorem beam_cx_rate_isotope_wavelength
    self donor_ion iso receiver_ionisation transition rates :
  beam_cx_rate self donor_ion (SIsotope iso) receiver_ionisation transition = Ok rates →
  (∀ w, config_wavelength (_config self) (SIsotope iso) (receiver_ionisation - 1) transition
        = Some w →
        Forall (λ r, rate_wavelength r = Some w) rates)
  ∧ (∀ w, config_wavelength (_config self) (SIsotope iso) (receiver_ionisation - 1) transition
          = None →
          config_wavelength (_config self) (SElement (element iso)) (receiver_ionisation - 1)
            transition = Some w →
          Forall (λ r, rate_wavelength r = Some w) rates).
Proof.
  intros (w0 & data & Hw0 & _ & Hrates)%beam_cx_rate_Ok.
  assert (Forall (λ r, rate_wavelength r = Some w0) rates) as Hall.
  { induction Hrates as [|entry r data rates (curve & _ & ->) _ IH]; constructor; done. }
  split; intros w.
  - intros Hw. rewrite (wavelength_direct _ _ _ _ _ Hw) in Hw0. by simplify_eq.
  - intros Hnone Hw. rewrite (wavelength_fallback _ _ _ _ _ Hnone Hw) in Hw0. by simplify_eq.
Qed.

(** ** What the messages name *)

Lemma append_assoc (s1 s2 s3 : string) : (s1 +:+ s2) +:+ s3 = s1 +:+ s2 +:+ s3.
Proof.
  induction s1 as [|c s1 IH]; [reflexivity|].
  change (String c ((s1 +:+ s2) +:+ s3) = String c (s1 +:+ s2 +:+ s3)).
  by f_equal.
Qed.

Lemma mentions_here part post : mentions (part +:+ post) part.
Proof. by exists "", post. Qed.

Lemma mentions_app_r pre msg part : mentions msg part → mentions (pre +:+ msg) part.
Proof.
  intros (p1 & p2 & ->). exists (pre +:+ p1), p2. by rewrite append_assoc.
Qed.

Ltac solve_mentions :=
  repeat first [ apply mentions_here | apply mentions_app_r ].

Lemma wavelength_message_mentions sym ionisation transition :
  let msg := wavelength_message sym ionisation transition in
  mentions msg sym ∧ mentions msg (str_int ionisation)
  ∧ mentions msg (str_transition transition).
Proof. unfold wavelength_message. split_and!; solve_mentions. Qed.

Lemma cxs_message_mentions donor receiver ionisation transition :
  let msg := cxs_message donor receiver ionisation transition in
  mentions msg donor ∧ mentions msg receiver ∧ mentions msg (str_int ionisation)
  ∧ mentions msg (str_transition transition).
Proof. unfold cxs_message. split_and!; solve_mentions. Qed.

Lemma bms_message_mentions beam plasma ionisation :
  let msg := bms_message beam plasma ionisation in
  mentions msg beam ∧ mentions msg plasma ∧ mentions msg (str_int ionisation).
Proof. unfold bms_message. split_and!; solve_mentions. Qed.

Lemma bmp_message_mentions beam metastable plasma ionisation :
  let msg := bmp_message beam metastable plasma ionisation in
  mentions msg beam ∧ mentions msg (str_int metastable) ∧ mentions msg plasma
  ∧ mentions msg (str_int ionisation).
Proof. unfold bmp_message. split_and!; solve_mentions. Qed.

Lemma bme_message_mentions beam plasma ionisation transition :
  let msg := bme_message beam plasma ionisation transition in
  mentions msg beam ∧ mentions msg plasma ∧ mentions msg (str_int ionisation)
  ∧ mentions msg (str_transition transition).
Proof. unfold bme_message. split_and!; solve_mentions. Qed.

Lemma excitation_message_mentions ion ionisation transition :
  let msg := excitation_message ion ionisation transition in
  mentions msg ion ∧ mentions msg (str_int ionisation)
  ∧ mentions msg (str_transition transition).
Proof. unfold excitation_message. split_and!; solve_mentions. Qed.

Lemma recombination_message_mentions ion ionisation transition :
  let msg := recombination_message ion ionisation transition in
  mentions msg ion ∧ mentions msg (str_int ionisation)
  ∧ mentions msg (str_transition transition).
Proof. unfold recombination_message. split_and!; solve_mentions. Qed.

(** ** A missing entry *)

Lemma wavelength_unresolved_Raise self ion ionisation transition :
  wavelength_unresolved (_config self) ion ionisation transition →
  wavelength self ion ionisation transition
  = Raise (RuntimeError (wavelength_message (symbol ion) ionisation transition)).
Proof. intros [H1 H2]. by apply wavelength_miss. Qed.

Lemma beam_cx_rate_miss self donor_ion receiver_ion receiver_ionisation transition w :
  wavelength self receiver_ion (receiver_ionisation - 1) transition = Ok w →
  config_cxs (_config self) (extract_element donor_ion) (extract_element receiver_ion)
    receiver_ionisation = None →
  beam_cx_rate self donor_ion receiver_ion receiver_ionisation transition
  = Raise (RuntimeError (cxs_message (symbol (extract_element donor_ion))
                           (symbol (extract_element receiver_ion))
                           receiver_ionisation transition)).
Proof. intros Hw H. unfold beam_cx_rate. rewrite Hw. simpl. by rewrite H. Qed.

Lemma beam_stopping_rate_miss self beam_ion plasma_ion ionisation :
  config_bms (_config self) (extract_element beam_ion) (extract_element plasma_ion)
    ionisation = None →
  beam_stopping_rate self beam_ion plasma_ion ionisation
  = Raise (RuntimeError (bms_message (symbol (extract_element beam_ion))
                           (symbol (extract_element plasma_ion)) ionisation)).
Proof. intros H. unfold beam_stopping_rate. by rewrite H. Qed.

Lemma beam_population_rate_miss self beam_ion metastable plasma_ion ionisation :
  config_bmp (_config self) (extract_element beam_ion) metastable
    (extract_element plasma_ion) ionisation = None →
  beam_population_rate self beam_ion metastable plasma_ion ionisation
  = Raise (RuntimeError (bmp_message (symbol (extract_element beam_ion)) metastable
                           (symbol (extract_element plasma_ion)) ionisation)).
Proof. intros H. unfold beam_population_rate. by rewrite H. Qed.

Lemma beam_emission_rate_miss self beam_ion plasma_ion ionisation transition w :
  wavelength self beam_ion 0 transition = Ok w →
  config_bme (_config self) (extract_element beam_ion) (extract_element plasma_ion)
    ionisation transition = None →
  beam_emission_rate self beam_ion plasma_ion ionisation transition
  = Raise (RuntimeError (bme_message (symbol (extract_element beam_ion))
                           (symbol (extract_element plasma_ion)) ionisation transition)).
Proof. intros Hw H. unfold beam_emission_rate. rewrite Hw. simpl. by rewrite H. Qed.

Lemma impact_excitation_rate_miss self ion ionisation transition w :
  wavelength self ion ionisation transition = Ok w →
  config_excitation (_config self) (extract_element ion) ionisation transition = None →
  impact_excitation_rate self ion ionisation transition
  = Raise (RuntimeError (excitation_message (symbol (extract_element ion))
                           ionisation transition)).
Proof. intros Hw H. unfold impact_excitation_rate. rewrite Hw. simpl. by rewrite H. Qed.

Lemma recombination_rate_miss self ion ionisation transition w :
  wavelength self ion ionisation transition = Ok w →
  config_recombination (_config self) (extract_element ion) ionisation transition = None →
  recombination_rate self ion ionisation transition
  = Raise (RuntimeError (recombination_message (symbol (extract_element ion))
                           ionisation transition)).
Proof. intros Hw H. unfold recombination_rate. rewrite Hw. simpl. by rewrite H. Qed.

(** A method that resolves a wavelength first raises what [wavelength]
    raises. *)
Lemma beam_emission_rate_wavelength_Raise self beam_ion plasma_ion ionisation transition e :
  wavelength self beam_ion 0 transition = Raise e →
  beam_emission_rate self beam_ion plasma_ion ionisation transition = Raise e.
Proof. intros H. unfold beam_emission_rate. by rewrite H. Qed.





Lemma message_only_RuntimeError msg parts :
  Forall (mentions msg) parts → message_only (RuntimeError msg) parts.
Proof. intros H. by exists msg. Qed.

(** C3, amended: the exception of a failing lookup is a [RuntimeError]
    whose argument tuple holds one value, the formatted message; the
    parameters of the query (species symbols, ionisation stage,
    transition, metastable level) are in it as text of that message.
    Species that a method reduces to their element are named by the
    element's symbol. *)
Theorem error_names_parameters_in_message self :
  (∀ ion ionisation transition,
     wavelength_unresolved (_config self) ion ionisation transition →
     ∃ e, wavelength self ion ionisation transition = Raise e
          ∧ message_only e [symbol ion; str_int ionisation; str_transition transition])
  ∧ (∀ donor_ion receiver_ion receiver_ionisation transition w,
       wavelength self receiver_ion (receiver_ionisation - 1) transition = Ok w →
       config_cxs (_config self) (extract_element donor_ion) (extract_element receiver_ion)
         receiver_ionisation = None →
       ∃ e, beam_cx_rate self donor_ion receiver_ion receiver_ionisation transition = Raise e
            ∧ message_only e [symbol (extract_element donor_ion);
                              symbol (extract_element receiver_ion);
                              str_int receiver_ionisation; str_transition transition])
  ∧ (∀ beam_ion plasma_ion ionisation,
       config_bms (_config self) (extract_element beam_ion) (extract_element plasma_ion)
         ionisation = None →
       ∃ e, beam_stopping_rate self beam_ion plasma_ion ionisation = Raise e
            ∧ message_only e [symbol (extract_element beam_ion);
                              symbol (extract_element plasma_ion); str_int ionisation])
  ∧ (∀ beam_ion metastable plasma_ion ionisation,
       config_bmp (_config self) (extract_element beam_ion) metastable
         (extract_element plasma_ion) ionisation = None →
       ∃ e, beam_population_rate self beam_ion metastable plasma_ion ionisation = Raise e
            ∧ message_only e [symbol (extract_element beam_ion); str_int metastable;
                              symbol (extract_element plasma_ion); str_int ionisation])
  ∧ (∀ beam_ion plasma_ion ionisation transition w,
       wavelength self beam_ion 0 transition = Ok w →
       config_bme (_config self) (extract_element beam_ion) (extract_element plasma_ion)
         ionisation transition = None →
       ∃ e, beam_emission_rate self beam_ion plasma_ion ionisation transition = Raise e
            ∧ message_only e [symbol (extract_element beam_ion);
                              symbol (extract_element plasma_ion);
                              str_int ionisation; str_transition transition])
  ∧ (∀ ion ionisation transition w,
       wavelength self ion ionisation transition = Ok w →
       config_excitation (_config self) (extract_element ion) ionisation transition = None →
       ∃ e, impact_excitation_rate self ion ionisation transition = Raise e
            ∧ message_only e [symbol (extract_element ion); str_int ionisation;
                              str_transition transition])
  ∧ (∀ ion ionisation transition w,
       wavelength self ion ionisation transition = Ok w →
       config_recombination (_config self) (extract_element ion) ionisation transition
       = None →
       ∃ e, recombination_rate self ion ionisation transition = Raise e
            ∧ message_only e [symbol (extract_element ion); str_int ionisation;
                              str_transition transition]).
Proof.
  split_and!.
  - intros ion ionisation transition H. eexists. split.
    + by apply wavelength_unresolved_Raise.
    + apply message_only_RuntimeError.
      destruct (wavelength_message_mentions (symbol ion) ionisation transition)
        as (?&?&?).
      by repeat constructor.
  - intros donor_ion receiver_ion ri transition w Hw H. eexists. split.
    + by eapply beam_cx_rate_miss.
    + apply message_only_RuntimeError.
      destruct (cxs_message_mentions (symbol (extract_element donor_ion))
                  (symbol (extract_element receiver_ion)) ri transition) as (?&?&?&?).
      by repeat constructor.
  - intros beam_ion plasma_ion ionisation H. eexists. split.
    + by apply beam_stopping_rate_miss.
    + apply message_only_RuntimeError.
      destruct (bms_message_mentions (symbol (extract_element beam_ion))
                  (symbol (extract_element plasma_ion)) ionisation) as (?&?&?).
      by repeat constructor.
  - intros beam_ion metastable plasma_ion ionisation H. eexists. split.
    + by apply beam_population_rate_miss.
    + apply message_only_RuntimeError.
      destruct (bmp_message_mentions (symbol (extract_element beam_ion)) metastable
                  (symbol (extract_element plasma_ion)) ionisation) as (?&?&?&?).
      by repeat constructor.
  - intros beam_ion plasma_ion ionisation transition w Hw H. eexists. split.
    + by eapply beam_emission_rate_miss.
    + apply message_only_RuntimeError.
      destruct (bme_message_mentions (symbol (extract_element beam_ion))
                  (symbol (extract_element plasma_ion)) ionisation transition)
        as (?&?&?&?).
      by repeat constructor.
  - intros ion ionisation transition w Hw H. eexists. split.
    + by eapply impact_excitation_rate_miss.
    + apply message_only_RuntimeError.
      destruct (excitation_message_mentions (symbol (extract_element ion))
                  ionisation transition) as (?&?&?).
      by repeat constructor.
  - intros ion ionisation transition w Hw H. eexists. split.
    + by eapply recombination_rate_miss.
    + apply message_only_RuntimeError.
      destruct (recombination_message_mentions (symbol (extract_element ion))
                  ionisation transition) as (?&?&?).
      by repeat constructor.
Qed.

(** ** Isotopes and their elements *)

Lemma extract_element_idemp ion :
  extract_element (extract_element ion) = extract_element ion.
Proof. by destruct ion. Qed.

(** C7, amended: [beam_stopping_rate] and [beam_population_rate] give for
    an isotope, in either species position, the outcome they give for its
    parent element.  [impact_excitation_rate] and [recombination_rate] do
    so whenever [wavelength] gives the same outcome for the isotope as
    for the element. *)
Theorem isotope_resolves_as_element self iso :
  (∀ plasma_ion ionisation,
     beam_stopping_rate self (SIsotope iso) plasma_ion ionisation
     = beam_stopping_rate self (SElement (element iso)) plasma_ion ionisation)
  ∧ (∀ beam_ion ionisation,
       beam_stopping_rate self beam_ion (SIsotope iso) ionisation
       = beam_stopping_rate self beam_ion (SElement (element iso)) ionisation)
  ∧ (∀ metastable plasma_ion ionisation,
       beam_population_rate self (SIsotope iso) metastable plasma_ion ionisation
       = beam_population_rate self (SElement (element iso)) metastable plasma_ion ionisation)
  ∧ (∀ beam_ion metastable ionisation,
       beam_population_rate self beam_ion metastable (SIsotope iso) ionisation
       = beam_population_rate self beam_ion metastable (SElement (element iso)) ionisation)
  ∧ (∀ ionisation transition,
       wavelength self (SIsotope iso) ionisation transition
       = wavelength self (SElement (element iso)) ionisation transition →
       impact_excitation_rate self (SIsotope iso) ionisation transition
       = impact_excitation_rate self (SElement (element iso)) ionisation transition)
  ∧ (∀ ionisation transition,
       wavelength self (SIsotope iso) ionisation transition
       = wavelength self (SElement (element iso)) ionisation transition →
       recombination_rate self (SIsotope iso) ionisation transition
       = recombination_rate self (SElement (element iso)) ionisation transition).
Proof.
  split_and!; try done.
  - intros ionisation transition Hw. unfold impact_excitation_rate. by rewrite Hw.
  - intros ionisation transition Hw. unfold recombination_rate. by rewrite Hw.
Qed.

(** ** [beam_emission_rate] and [beam_population_rate] *)

(** C8: [beam_emission_rate] first calls [wavelength] with the beam
    species as passed, stage 0 and the transition; what that call raises
    is raised unchanged.  Only with the wavelength in hand are both
    species reduced to their elements for the subscript
    [bme[beam][plasma][ionisation][transition]], whose file is read into
    a rate that carries the wavelength. *)
Theorem beam_emission_rate_wavelength_then_lookup
    self beam_ion plasma_ion ionisation transition :
  (∀ e, wavelength self beam_ion 0 transition = Raise e →
        beam_emission_rate self beam_ion plasma_ion ionisation transition = Raise e)
  ∧ (∀ w, wavelength self beam_ion 0 transition = Ok w →
          beam_emission_rate self beam_ion plasma_ion ionisation transition
          = match config_bme (_config self) (extract_element beam_ion)
                    (extract_element plasma_ion) ionisation transition with
            | Some filename =>
                let* data := adf22 (path_join (_data_path self) filename) in
                Ok (BeamEmissionRate data w (_permit_extrapolation self))
            | None =>
                Raise (RuntimeError (bme_message (symbol (extract_element beam_ion))
                                       (symbol (extract_element plasma_ion))
                                       ionisation transition))
            end)
  ∧ (∀ iso w, beam_ion = SIsotope iso →
              config_wavelength (_config self) (SIsotope iso) 0 transition = None →
              config_wavelength (_config self) (SElement (element iso)) 0 transition
              = Some w →
              ∀ filename data,
                config_bme (_config self) (SElement (element iso))
                  (extract_element plasma_ion) ionisation transition = Some filename →
                adf22 (path_join (_data_path self) filename) = Ok data →
                beam_emission_rate self beam_ion plasma_ion ionisation transition
                = Ok (BeamEmissionRate data w (_permit_extrapolation self))).
Proof.
  split_and!.
  - intros e. apply beam_emission_rate_wavelength_Raise.
  - intros w Hw. unfold beam_emission_rate. rewrite Hw. simpl.
    by destruct (config_bme _ _ _ _ _).
  - intros iso w -> Hnone Helem filename data Hbme Hread.
    unfold beam_emission_rate.
    rewrite (wavelength_fallback _ _ _ _ _ Hnone Helem). simpl.
    rewrite Hbme, Hread. done.
Qed.

(** C9: [beam_population_rate] reduces both species to their elements
    whatever the configuration holds, uses the metastable level as it is,
    subscripts in the order [bmp[beam][metastable][plasma][ionisation]],
    and on a missing path raises the [RuntimeError] whose message names
    the two element symbols, the metastable level and the ionisation
    stage. *)
Theorem beam_population_rate_lookup self beam_ion metastable plasma_ion ionisation :
  beam_population_rate self beam_ion metastable plasma_ion ionisation
  = beam_population_rate self (extract_element beam_ion) metastable
      (extract_element plasma_ion) ionisation
  ∧ (∀ d0 d1 d2 d3 filename data,
       cfg_bmp (_config self) = Some d0 →
       d0 !! extract_element beam_ion = Some d1 →
       d1 !! metastable = Some d2 →
       d2 !! extract_element plasma_ion = Some d3 →
       d3 !! ionisation = Some filename →
       adf22 (path_join (_data_path self) filename) = Ok data →
       beam_population_rate self beam_ion metastable plasma_ion ionisation
       = Ok (BeamPopulationRate data (_permit_extrapolation self)))
  ∧ (config_bmp (_config self) (extract_element beam_ion) metastable
       (extract_element plasma_ion) ionisation = None →
     ∃ msg,
       beam_population_rate self beam_ion metastable plasma_ion ionisation
       = Raise (RuntimeError msg)
       ∧ msg = bmp_message (symbol (extract_element beam_ion)) metastable
                 (symbol (extract_element plasma_ion)) ionisation
       ∧ mentions msg (symbol (extract_element beam_ion))
       ∧ mentions msg (str_int metastable)
       ∧ mentions msg (symbol (extract_element plasma_ion))
       ∧ mentions msg (str_int ionisation)).
Proof.
  split_and!.
  - unfold beam_population_rate. by rewrite !extract_element_idemp.
  - intros d0 d1 d2 d3 filename data H0 H1 H2 H3 H4 Hread.
    unfold beam_population_rate, config_bmp.
    rewrite H0. simpl. rewrite H1. simpl. rewrite H2. simpl. rewrite H3. simpl.
    rewrite H4, Hread. done.
  - intros H. eexists. split; [by apply beam_population_rate_miss|].
    split; [done|].
    apply (bmp_message_mentions (symbol (extract_element beam_ion)) metastable
             (symbol (extract_element plasma_ion)) ionisation).
Qed.

(** ** When a rate is returned *)



(** X2: [beam_cx_rate] returns the empty list exactly when the wavelength
    resolves and the configured list of files is empty; no file is needed
    then, whatever the reader does. *)
Theorem beam_cx_rate_nil_iff self donor_ion receiver_ion receiver_ionisation transition :
  beam_cx_rate self donor_ion receiver_ion receiver_ionisation transition = Ok []
  ↔ (∃ w, wavelength self receiver_ion (receiver_ionisation - 1) transition = Ok w)
    ∧ config_cxs (_config self) (extract_element donor_ion) (extract_element receiver_ion)
        receiver_ionisation = Some [].
Proof.
  split.
  - intros (w & data & Hw & Hcxs & Hrates)%beam_cx_rate_Ok.
    apply Forall2_nil_inv_r in Hrates as ->. split; [by exists w|done].
  - intros [[w Hw] Hcxs]. unfold beam_cx_rate. rewrite Hw. simpl. by rewrite Hcxs.
Qed.

(** X3: when a configured file fails to load, [beam_cx_rate] raises the
    reader's exception for the first such file: the rates built from the
    files before it are dropped, and the entries after it play no part. *)
Theorem beam_cx_rate_first_failure
    self donor_ion receiver_ion receiver_ionisation transition w data1 m f data2 e :
  wavelength self receiver_ion (receiver_ionisation - 1) transition = Ok w →
  config_cxs (_config self) (extract_element donor_ion) (extract_element receiver_ion)
    receiver_ionisation = Some (data1 ++ (m, f) :: data2) →
  (∀ m' f', (m', f') ∈ data1 →
            ∃ curve, adf12 (path_join (_data_path self) f') transition = Ok curve) →
  adf12 (path_join (_data_path self) f) transition = Raise e →
  beam_cx_rate self donor_ion receiver_ion receiver_ionisation transition = Raise e.
Proof.
  intros Hw Hcxs Hread He. unfold beam_cx_rate. rewrite Hw. simpl. rewrite Hcxs.
  by apply beam_cx_rate_loop_Raise.
Qed.

Lemma beam_stopping_rate_Ok_iff self beam_ion plasma_ion ionisation r :
  beam_stopping_rate self beam_ion plasma_ion ionisation = Ok r
  ↔ ∃ filename data,
      config_bms (_config self) (extract_element beam_ion) (extract_element plasma_ion)
        ionisation = Some filename
      ∧ adf21 (path_join (_data_path self) filename) = Ok data
      ∧ r = BeamStoppingRate data (_permit_extrapolation self).
Proof.
  unfold beam_stopping_rate. split.
  - destruct (config_bms _ _ _ _) as [filename|]; [|discriminate].
    destruct (adf21 _) as [data|] eqn:Hread; simpl; [|discriminate].
    intros [= <-]. by exists filename, data.
  - intros (filename & data & -> & Hread & ->). by rewrite Hread.
Qed.

Lemma beam_population_rate_Ok_iff self beam_ion metastable plasma_ion ionisation r :
  beam_population_rate self beam_ion metastable plasma_ion ionisation = Ok r
  ↔ ∃ filename data,
      config_bmp (_config self) (extract_element beam_ion) metastable
        (extract_element plasma_ion) ionisation = Some filename
      ∧ adf22 (path_join (_data_path self) filename) = Ok data
      ∧ r = BeamPopulationRate data (_permit_extrapolation self).
Proof.
  unfold beam_population_rate. split.
  - destruct (config_bmp _ _ _ _ _) as [filename|]; [|discriminate].
    destruct (adf22 _) as [data|] eqn:Hread; simpl; [|discriminate].
    intros [= <-]. by exists filename, data.
  - intros (filename & data & -> & Hread & ->). by rewrite Hread.
Qed.

Lemma beam_emission_rate_Ok_iff self beam_ion plasma_ion ionisation transition r :
  beam_emission_rate self beam_ion plasma_ion ionisation transition = Ok r
  ↔ ∃ w filename data,
      wavelength self beam_ion 0 transition = Ok w
      ∧ config_bme (_config self) (extract_element beam_ion)
          (extract_element plasma_ion) ionisation transition = Some filename
      ∧ adf22 (path_join (_data_path self) filename) = Ok data
      ∧ r = BeamEmissionRate data w (_permit_extrapolation self).
Proof.
  unfold beam_emission_rate. split.
  - destruct (wavelength _ _ _ _) as [w|]; simpl; [|discriminate].
    destruct (config_bme _ _ _ _ _) as [filename|]; [|discriminate].
    destruct (adf22 _) as [data|] eqn:Hread; simpl; [|discriminate].
    intros [= <-]. by exists w, filename, data.
  - intros (w & filename & data & -> & Hbme & Hread & ->). simpl.
    by rewrite Hbme, Hread.
Qed.

Lemma impact_excitation_rate_Ok_iff self ion ionisation transition r :
  impact_excitation_rate self ion ionisation transition = Ok r
  ↔ ∃ w filename block_number data,
      wavelength self ion ionisation transition = Ok w
      ∧ config_excitation (_config self) (extract_element ion) ionisation transition
        = Some (filename, block_number)
      ∧ adf15 (path_join (_data_path self) filename) block_number = Ok data
      ∧ r = ImpactExcitationRate w data (_permit_extrapolation self).
Proof.
  unfold impact_excitation_rate. split.
  - destruct (wavelength _ _ _ _) as [w|]; simpl; [|discriminate].
    destruct (config_excitation _ _ _ _) as [[filename block_number]|]; [|discriminate].
    destruct (adf15 _ _) as [data|] eqn:Hread; simpl; [|discriminate].
    intros [= <-]. by exists w, filename, block_number, data.
  - intros (w & filename & block_number & data & -> & Hcfg & Hread & ->). simpl.
    by rewrite Hcfg, Hread.
Qed.

Lemma recombination_rate_Ok_iff self ion ionisation transition r :
  recombination_rate self ion ionisation transition = Ok r
  ↔ ∃ w filename block_number data,
      wavelength self ion ionisation transition = Ok w
      ∧ config_recombination (_config self) (extract_element ion) ionisation transition
        = Some (filename, block_number)
      ∧ adf15 (path_join (_data_path self) filename) block_number = Ok data
      ∧ r = RecombinationRate w data (_permit_extrapolation self).
Proof.
  unfold recombination_rate. split.
  - destruct (wavelength _ _ _ _) as [w|]; simpl; [|discriminate].
    destruct (config_recombination _ _ _ _) as [[filename block_number]|]; [|discriminate].
    destruct (adf15 _ _) as [data|] eqn:Hread; simpl; [|discriminate].
    intros [= <-]. by exists w, filename, block_number, data.
  - intros (w & filename & block_number & data & -> & Hcfg & Hread & ->). simpl.
    by rewrite Hcfg, Hread.
Qed.


(** X5: every rate object that a method returns carries the extrapolation
    flag of the object it was asked of. *)
Theorem rates_carry_permit_extrapolation self :
  (∀ donor_ion receiver_ion receiver_ionisation transition rates,
     beam_cx_rate self donor_ion receiver_ion receiver_ionisation transition = Ok rates →
     Forall (λ r, rate_extrapolate r = _permit_extrapolation self) rates)
  ∧ (∀ beam_ion plasma_ion ionisation r,
       beam_stopping_rate self beam_ion plasma_ion ionisation = Ok r →
       rate_extrapolate r = _permit_extrapolation self)
  ∧ (∀ beam_ion metastable plasma_ion ionisation r,
       beam_population_rate self beam_ion metastable plasma_ion ionisation = Ok r →
       rate_extrapolate r = _permit_extrapolation self)
  ∧ (∀ beam_ion plasma_ion ionisation transition r,
       beam_emission_rate self beam_ion plasma_ion ionisation transition = Ok r →
       rate_extrapolate r = _permit_extrapolation self)
  ∧ (∀ ion ionisation transition r,
       impact_excitation_rate self ion ionisation transition = Ok r →
       rate_extrapolate r = _permit_extrapolation self)
  ∧ (∀ ion ionisation transition r,
       recombination_rate self ion ionisation transition = Ok r →
       rate_extrapolate r = _permit_extrapolation self).
Proof.
  split_and!.
  - intros donor_ion receiver_ion ri transition rates
      (w & data & _ & _ & Hrates)%beam_cx_rate_Ok.
    induction Hrates as [|entry r data rates (curve & _ & ->) _ IH]; constructor; done.
  - intros * (?&?&_&_&->)%beam_stopping_rate_Ok_iff. done.
  - intros * (?&?&_&_&->)%beam_population_rate_Ok_iff. done.
  - intros * (?&?&?&_&_&_&->)%beam_emission_rate_Ok_iff. done.
  - intros * (?&?&?&?&_&_&_&->)%impact_excitation_rate_Ok_iff. done.
  - intros * (?&?&?&?&_&_&_&->)%recombination_rate_Ok_iff. done.
Qed.

(** X6: an exception of a reader is raised unchanged by the method that
    called it; no method catches it or turns it into the [RuntimeError] of
    a missing entry. *)
Theorem reader_exception_is_raised self e :
  (∀ beam_ion plasma_ion ionisation filename,
     config_bms (_config self) (extract_element beam_ion) (extract_element plasma_ion)
       ionisation = Some filename →
     adf21 (path_join (_data_path self) filename) = Raise e →
     beam_stopping_rate self beam_ion plasma_ion ionisation = Raise e)
  ∧ (∀ beam_ion metastable plasma_ion ionisation filename,
       config_bmp (_config self) (extract_element beam_ion) metastable
         (extract_element plasma_ion) ionisation = Some filename →
       adf22 (path_join (_data_path self) filename) = Raise e →
       beam_population_rate self beam_ion metastable plasma_ion ionisation = Raise e)
  ∧ (∀ beam_ion plasma_ion ionisation transition w filename,
       wavelength self beam_ion 0 transition = Ok w →
       config_bme (_config self) (extract_element beam_ion) (extract_element plasma_ion)
         ionisation transition = Some filename →
       adf22 (path_join (_data_path self) filename) = Raise e →
       beam_emission_rate self beam_ion plasma_ion ionisation transition = Raise e)
  ∧ (∀ ion ionisation transition w filename block_number,
       wavelength self ion ionisation transition = Ok w →
       config_excitation (_config self) (extract_element ion) ionisation transition
       = Some (filename, block_number) →
       adf15 (path_join (_data_path self) filename) block_number = Raise e →
       impact_excitation_rate self ion ionisation transition = Raise e)
  ∧ (∀ ion ionisation transition w filename block_number,
       wavelength self ion ionisation transition = Ok w →
       config_recombination (_config self) (extract_element ion) ionisation transition
       = Some (filename, block_number) →
       adf15 (path_join (_data_path self) filename) block_number = Raise e →
       recombination_rate self ion ionisation transition = Raise e).
Proof.
  split_and!.
  - intros * Hcfg Hread. unfold beam_stopping_rate. by rewrite Hcfg, Hread.
  - intros * Hcfg Hread. unfold beam_population_rate. by rewrite Hcfg, Hread.
  - intros * Hw Hcfg Hread. unfold beam_emission_rate. rewrite Hw. simpl.
    by rewrite Hcfg, Hread.
  - intros * Hw Hcfg Hread. unfold impact_excitation_rate. rewrite Hw. simpl.
    by rewrite Hcfg, Hread.
  - intros * Hw Hcfg Hread. unfold recombination_rate. rewrite Hw. simpl.
    by rewrite Hcfg, Hread.
Qed.

(** ** Absolute file names *)




(** ** Reading a message back *)

Lemma append_cons c s t : String c s +:+ t = String c (s +:+ t).
Proof. reflexivity. Qed.

Lemma append_nil_l s : "" +:+ s = s.
Proof. reflexivity. Qed.

Lemma append_inj_l s a b : s +:+ a = s +:+ b → a = b.
Proof.
  induction s as [|c s IH]; [done|]. rewrite !append_cons. intros [= H]. by apply IH.
Qed.

Lemma numeric_pretty_N_go x s : numeric s → numeric (pretty_N_go x s).
Proof.
  revert s. induction (N.lt_wf_0 x) as [x _ IH]; intros s Hs.
  destruct (decide (x = 0)%N) as [->|Hx]; [by rewrite pretty_N_go_0|].
  rewrite pretty_N_go_step by lia. apply IH; [apply N.div_lt; lia|].
  simpl. apply andb_True. split; [|done].
  unfold pretty_N_char. by repeat case_match.
Qed.

Lemma numeric_str_int z : numeric (str_int z).
Proof.
  unfold str_int, pretty, pretty_Z. destruct z as [|x|x]; [done| |].
  - unfold pretty, pretty_positive, pretty, pretty_N. case_decide; [done|].
    by apply numeric_pretty_N_go.
  - rewrite append_cons. simpl.
    unfold pretty, pretty_positive, pretty, pretty_N. case_decide; [done|].
    by apply numeric_pretty_N_go.
Qed.

(** Two numerals followed by the same separator: the texts are equal only
    if the numerals and the rests are. *)
Lemma numeric_split c s1 s2 r1 r2 :
  numeric s1 → numeric s2 → numeric_char c = false →
  s1 +:+ String c r1 = s2 +:+ String c r2 → s1 = s2 ∧ r1 = r2.
Proof.
  intros H1 H2 Hc. revert s2 H2.
  induction s1 as [|c1 s1 IH]; intros [|c2 s2] H2; rewrite ?append_cons; simpl.
  - by intros [= ->].
  - intros [= -> _]. simpl in H2. rewrite Hc in H2. done.
  - intros [= -> _]. simpl in H1. rewrite Hc in H1. done.
  - intros [= -> H]. simpl in H1, H2.
    apply andb_True in H1 as [_ H1]. apply andb_True in H2 as [_ H2].
    destruct (IH H1 s2 H2 H) as [-> ->]. done.
Qed.

(** X8: the message of a wavelength error determines the query: for one
    species symbol, two messages are the same text only if they name the
    same ionisation stage and the same transition. *)
Theorem wavelength_message_inj sym ionisation transition ionisation' transition' :
  wavelength_message sym ionisation transition
  = wavelength_message sym ionisation' transition' →
  ionisation = ionisation' ∧ transition = transition'.
Proof.
  destruct transition as [a b], transition' as [a' b'].
  unfold wavelength_message, str_transition. simpl.
  intros H. apply append_inj_l, append_inj_l in H.
  rewrite !append_assoc, !append_cons, !append_nil_l in H.
  injection H as H.
  apply numeric_split in H as [Hi H]; [|apply numeric_str_int..|done].
  injection H as H.
  apply numeric_split in H as [Ha H]; [|apply numeric_str_int..|done].
  injection H as H.
  apply numeric_split in H as [Hb _]; [|apply numeric_str_int..|done].
  unfold str_int in *.
  apply (inj pretty) in Hi, Ha, Hb. by subst.
Qed.

(** ** Which entries are read *)

(** X17: [wavelength] returns a value only from the configuration: the
    entry of the species as passed, or, when that one is missing, the entry
    of its element. *)
Theorem wavelength_Ok_iff self ion ionisation transition w :
  wavelength self ion ionisation transition = Ok w
  ↔ config_wavelength (_config self) ion ionisation transition = Some w
    ∨ (config_wavelength (_config self) ion ionisation transition = None
       ∧ config_wavelength (_config self) (extract_element ion) ionisation transition
         = Some w).
Proof.
  unfold wavelength. split.
  - destruct (config_wavelength _ ion _ _) as [w'|] eqn:Hdirect.
    { intros [= ->]. by left. }
    destruct ion as [e|iso]; simpl; [discriminate|].
    destruct (config_wavelength _ (SElement _) _ _) as [w'|]; [|discriminate].
    intros [= ->]. by right.
  - intros [->|[Hdirect Helem]]; [done|]. rewrite Hdirect.
    destruct ion as [e|iso]; simpl in Helem; [congruence|by rewrite Helem].
Qed.

(** X18: an entry of the [bms] branch that is filed under an isotope as
    beam species is never read: with or without it, [beam_stopping_rate]
    gives the same outcome for every query. *)
Theorem isotope_keyed_bms_entry_is_unread self bms iso entry :
  cfg_bms (_config self) = Some bms →
  ∀ beam_ion plasma_ion ionisation,
    beam_stopping_rate (with_bms self (<[SIsotope iso := entry]> bms))
      beam_ion plasma_ion ionisation
    = beam_stopping_rate self beam_ion plasma_ion ionisation.
Proof.
  intros Hbms beam_ion plasma_ion ionisation.
  unfold beam_stopping_rate, config_bms, with_bms. simpl. rewrite Hbms. simpl.
  rewrite lookup_insert_ne; [done|]. by destruct beam_ion.
Qed.

End Resolver.

(** ** The theorems at the scenarios *)

Example wavelength_message_text :
  wavelength_message "C12" 4 (8, 7)
  = "The requested wavelength data for (C12, 4, (8, 7)) is not available.".
Proof. vm_compute. reflexivity. Qed.

Example cxs_message_text :
  cxs_message "H" "C" 6 (8, 7)
  = "The requested beam cx rate data does not have an entry in the Open-ADAS configuration(donor ion: H, receiver ion: C, ionisation: 6, transition: (8, 7)).".
Proof. vm_compute. reflexivity. Qed.

Example str_int_negative : str_int (-1) = "-1".
Proof. vm_compute. reflexivity. Qed.

Example path_join_examples :
  path_join "/data" "file_a.dat" = "/data/file_a.dat"
  ∧ path_join "/data/" "file_a.dat" = "/data/file_a.dat"
  ∧ path_join "/data" "/abs/file_a.dat" = "/abs/file_a.dat"
  ∧ path_join "" "file_a.dat" = "file_a.dat".
Proof. vm_compute. done. Qed.

(** The scenario of C1: only [wavelength[carbon][5][(8, 7)] = 529.1] is
    configured, and carbon-12 is asked for. *)
Lemma wavelength_isotope_uses_element_entry_witness :
  config_wavelength (_config adas_wavelength) (SIsotope carbon12) 5 (8, 7) = None
  ∧ config_wavelength (_config adas_wavelength) (SElement (element carbon12)) 5 (8, 7)
    = Some w529_1
  ∧ wavelength adas_wavelength (SIsotope carbon12) 5 (8, 7) = Ok w529_1.
Proof.
  assert (config_wavelength (_config adas_wavelength) (SIsotope carbon12) 5 (8, 7) = None)
    as H1 by (vm_compute; reflexivity).
  assert (config_wavelength (_config adas_wavelength) (SElement (element carbon12)) 5 (8, 7)
          = Some w529_1) as H2 by (vm_compute; reflexivity).
  split; [exact H1|]. split; [exact H2|].
  exact (proj1 (wavelength_isotope_uses_element_entry
                  adas_wavelength carbon12 5 (8, 7) w529_1 H1 H2)).
Defined.


(** C3 as stated fails: the exception of a miss on the empty configuration
    has the message as its only argument; the stage, the transition, the
    species and its symbol are not arguments of it. *)
Lemma error_carries_no_structured_parameters :
  ∃ e, wavelength adas_empty (SElement carbon) 5 (8, 7) = Raise e
       ∧ exc_args e
         = [ArgStr "The requested wavelength data for (C, 5, (8, 7)) is not available."]
       ∧ ¬ carries e (ArgInt 5)
       ∧ ¬ carries e (ArgTransition (8, 7))
       ∧ ¬ carries e (ArgSpecies (SElement carbon))
       ∧ ¬ carries e (ArgStr "C").
Proof.
  eexists. split; [vm_compute; reflexivity|]. split; [reflexivity|].
  unfold carries. simpl.
  split_and!; intros H; apply list_elem_of_singleton in H; discriminate H.
Qed.

(** C3, amended, one query per method. *)
Lemma error_names_parameters_in_message_witness :
  (∃ e, wavelength adas_empty (SIsotope deuterium) 0 (3, 2) = Raise e
        ∧ message_only e ["D"; str_int 0; str_transition (3, 2)])
  ∧ (∃ e, beam_cx_rate read_adf12 (Surface := FileSurface) adas_wavelengths
            (SIsotope deuterium) (SIsotope carbon12) 6 (8, 7) = Raise e
          ∧ message_only e ["H"; "C"; str_int 6; str_transition (8, 7)])
  ∧ (∃ e, beam_stopping_rate read_adf21 (Curve := FileCurve) adas_empty
            (SIsotope deuterium) (SElement carbon) 6 = Raise e
          ∧ message_only e ["H"; "C"; str_int 6])
  ∧ (∃ e, beam_population_rate read_adf22 (Curve := FileCurve) adas_empty
            (SIsotope deuterium) 2 (SElement carbon) 6 = Raise e
          ∧ message_only e ["H"; str_int 2; "C"; str_int 6])
  ∧ (∃ e, beam_emission_rate read_adf22 (Curve := FileCurve) adas_wavelengths
            (SIsotope deuterium) (SElement carbon) 6 (3, 2) = Raise e
          ∧ message_only e ["H"; "C"; str_int 6; str_transition (3, 2)])
  ∧ (∃ e, impact_excitation_rate read_adf15 (Surface := FileSurface) adas_wavelengths
            (SIsotope carbon12) 5 (8, 7) = Raise e
          ∧ message_only e ["C"; str_int 5; str_transition (8, 7)])
  ∧ (∃ e, recombination_rate read_adf15 (Surface := FileSurface) adas_wavelengths
            (SIsotope carbon12) 5 (8, 7) = Raise e
          ∧ message_only e ["C"; str_int 5; str_transition (8, 7)]).
Proof.
  destruct (error_names_parameters_in_message read_adf12 read_adf15 read_adf21 read_adf22
              adas_empty) as (Hw & _ & Hbms & Hbmp & _).
  destruct (error_names_parameters_in_message read_adf12 read_adf15 read_adf21 read_adf22
              adas_wavelengths) as (_ & Hcx & _ & _ & Hbme & Hexc & Hrec).
  split_and!.
  - apply (Hw (SIsotope deuterium) 0 (3, 2)). split; vm_compute; reflexivity.
  - apply (Hcx (SIsotope deuterium) (SIsotope carbon12) 6 (8, 7) w529_1);
      vm_compute; reflexivity.
  - apply (Hbms (SIsotope deuterium) (SElement carbon) 6). vm_compute. reflexivity.
  - apply (Hbmp (SIsotope deuterium) 2 (SElement carbon) 6). vm_compute. reflexivity.
  - apply (Hbme (SIsotope deuterium) (SElement carbon) 6 (3, 2) (Qmake 65628 100));
      vm_compute; reflexivity.
  - apply (Hexc (SIsotope carbon12) 5 (8, 7) w529_1); vm_compute; reflexivity.
  - apply (Hrec (SIsotope carbon12) 5 (8, 7) w529_1); vm_compute; reflexivity.
Defined.



Lemma beam_cx_rate_wavelength_first_witness :
  beam_cx_rate read_adf12 (Surface := FileSurface) adas_cxs_only
    (SIsotope deuterium) (SIsotope carbon12) 6 (8, 7)
  = Raise (RuntimeError (wavelength_message "C12" 5 (8, 7)))
  ∧ RuntimeError (wavelength_message "C12" 5 (8, 7))
    = RuntimeError (wavelength_message (symbol (SIsotope carbon12)) (6 - 1) (8, 7)).
Proof.
  apply (beam_cx_rate_wavelength_first read_adf12 adas_cxs_only
           (SIsotope deuterium) (SIsotope carbon12) 6 (8, 7)).
  vm_compute. reflexivity.
Defined.

(** C7 as stated fails for the two methods that resolve a wavelength: with
    a wavelength entry for carbon-12 next to the one for carbon the rates
    differ in their wavelength, and on a configuration keyed by elements
    only, a missing wavelength is reported under the symbol of the species
    passed. *)
Lemma isotope_and_element_differ_through_wavelength :
  (impact_excitation_rate read_adf15 (Surface := FileSurface) adas_isotope_wavelength
     (SIsotope carbon12) 5 (8, 7)
   = Ok (ImpactExcitationRate w529_0 (Adf15Data "/data/pec.dat" 3) true)
   ∧ impact_excitation_rate read_adf15 (Surface := FileSurface) adas_isotope_wavelength
       (SElement (element carbon12)) 5 (8, 7)
     = Ok (ImpactExcitationRate w529_1 (Adf15Data "/data/pec.dat" 3) true))
  ∧ (recombination_rate read_adf15 (Surface := FileSurface) adas_full
       (SIsotope carbon12) 4 (8, 7)
     = Raise (RuntimeError
                "The requested wavelength data for (C12, 4, (8, 7)) is not available.")
     ∧ recombination_rate read_adf15 (Surface := FileSurface) adas_full
         (SElement (element carbon12)) 4 (8, 7)
       = Raise (RuntimeError
                  "The requested wavelength data for (C, 4, (8, 7)) is not available."))
  ∧ impact_excitation_rate read_adf15 (Surface := FileSurface) adas_isotope_wavelength
      (SIsotope carbon12) 5 (8, 7)
    ≠ impact_excitation_rate read_adf15 (Surface := FileSurface) adas_isotope_wavelength
        (SElement (element carbon12)) 5 (8, 7)
  ∧ recombination_rate read_adf15 (Surface := FileSurface) adas_full
      (SIsotope carbon12) 4 (8, 7)
    ≠ recombination_rate read_adf15 (Surface := FileSurface) adas_full
        (SElement (element carbon12)) 4 (8, 7).
Proof.
  split_and!; try (vm_compute; reflexivity); vm_compute; discriminate.
Qed.

(** C7, amended, on the configuration keyed by elements. *)
Lemma isotope_resolves_as_element_witness :
  beam_stopping_rate read_adf21 (Curve := FileCurve) adas_full
    (SIsotope deuterium) (SIsotope carbon12) 6
  = beam_stopping_rate read_adf21 adas_full (SElement hydrogen) (SIsotope carbon12) 6
  ∧ beam_stopping_rate read_adf21 (Curve := FileCurve) adas_full
      (SElement hydrogen) (SIsotope carbon12) 6
    = beam_stopping_rate read_adf21 adas_full (SElement hydrogen) (SElement carbon) 6
  ∧ beam_population_rate read_adf22 (Curve := FileCurve) adas_full
      (SIsotope deuterium) 2 (SIsotope carbon12) 6
    = beam_population_rate read_adf22 adas_full (SElement hydrogen) 2 (SIsotope carbon12) 6
  ∧ beam_population_rate read_adf22 (Curve := FileCurve) adas_full
      (SElement hydrogen) 2 (SIsotope carbon12) 6
    = beam_population_rate read_adf22 adas_full (SElement hydrogen) 2 (SElement carbon) 6
  ∧ impact_excitation_rate read_adf15 (Surface := FileSurface) adas_full
      (SIsotope carbon12) 5 (8, 7)
    = impact_excitation_rate read_adf15 adas_full (SElement carbon) 5 (8, 7)
  ∧ recombination_rate read_adf15 (Surface := FileSurface) adas_full
      (SIsotope carbon12) 5 (8, 7)
    = recombination_rate read_adf15 adas_full (SElement carbon) 5 (8, 7).
Proof.
  destruct (isotope_resolves_as_element read_adf15 read_adf21 read_adf22
              adas_full deuterium) as (Hbms1 & _ & Hbmp1 & _).
  destruct (isotope_resolves_as_element read_adf15 read_adf21 read_adf22
              adas_full carbon12) as (_ & Hbms2 & _ & Hbmp2 & Hexc & Hrec).
  split_and!.
  - apply (Hbms1 (SIsotope carbon12) 6).
  - apply (Hbms2 (SElement hydrogen) 6).
  - apply (Hbmp1 2 (SIsotope carbon12) 6).
  - apply (Hbmp2 (SElement hydrogen) 2 6).
  - apply (Hexc 5 (8, 7)). vm_compute. reflexivity.
  - apply (Hrec 5 (8, 7)). vm_compute. reflexivity.
Defined.

Lemma beam_emission_rate_wavelength_then_lookup_witness :
  beam_emission_rate read_adf22 (Curve := FileCurve) adas_full
    (SIsotope deuterium) (SIsotope carbon12) 6 (3, 2)
  = Ok (BeamEmissionRate (Adf22Data "/data/bme.dat") (Qmake 65628 100) true)
  ∧ beam_emission_rate read_adf22 (Curve := FileCurve) adas_wavelength
      (SIsotope deuterium) (SIsotope carbon12) 6 (3, 2)
    = Raise (RuntimeError (wavelength_message "D" 0 (3, 2))).
Proof.
  split.
  - apply (proj2 (proj2 (beam_emission_rate_wavelength_then_lookup read_adf22 adas_full
                           (SIsotope deuterium) (SIsotope carbon12) 6 (3, 2)))
             deuterium (Qmake 65628 100) eq_refl)
      with (filename := "bme.dat");
      vm_compute; reflexivity.
  - apply (proj1 (beam_emission_rate_wavelength_then_lookup read_adf22 adas_wavelength
                    (SIsotope deuterium) (SIsotope carbon12) 6 (3, 2))).
    vm_compute. reflexivity.
Defined.

Lemma beam_population_rate_lookup_witness :
  beam_population_rate read_adf22 (Curve := FileCurve) adas_full
    (SIsotope deuterium) 2 (SIsotope carbon12) 6
  = Ok (BeamPopulationRate (Adf22Data "/data/bmp.dat") true)
  ∧ ∃ msg, beam_population_rate read_adf22 (Curve := FileCurve) adas_full
             (SIsotope deuterium) 1 (SIsotope carbon12) 6 = Raise (RuntimeError msg)
           ∧ msg = bmp_message "H" 1 "C" 6
           ∧ mentions msg "H" ∧ mentions msg (str_int 1)
           ∧ mentions msg "C" ∧ mentions msg (str_int 6).
Proof.
  split.
  - apply (proj1 (proj2 (beam_population_rate_lookup read_adf22 adas_full
                           (SIsotope deuterium) 2 (SIsotope carbon12) 6))
             bmp_h2_c6
             {[ 2 := {[ SElement carbon := {[ 6 := "bmp.dat" ]} ]} ]}
             {[ SElement carbon := {[ 6 := "bmp.dat" ]} ]}
             {[ 6 := "bmp.dat" ]} "bmp.dat" (Adf22Data "/data/bmp.dat")).
    + reflexivity.
    + apply lookup_singleton_eq.
    + apply lookup_singleton_eq.
    + apply lookup_singleton_eq.
    + apply lookup_singleton_eq.
    + vm_compute. reflexivity.
  - apply (proj2 (proj2 (beam_population_rate_lookup read_adf22 adas_full
                           (SIsotope deuterium) 1 (SIsotope carbon12) 6))).
    vm_compute. reflexivity.
Defined.

Lemma beam_cx_rate_isotope_wavelength_witness :
  beam_cx_rate read_adf12 (Surface := FileSurface) adas_isotope_wavelength
    (SIsotope deuterium) (SIsotope carbon12) 6 (8, 7)
  = Ok [BeamCXRate 1 w529_0 (Adf12Data "/data/file_a.dat" (8, 7)) true;
        BeamCXRate 2 w529_0 (Adf12Data "/data/file_b.dat" (8, 7)) true]
  ∧ config_wavelength (_config adas_isotope_wavelength) (SIsotope carbon12) (6 - 1) (8, 7)
    = Some w529_0
  ∧ Forall (λ r : Rate FileCurve FileSurface, rate_wavelength r = Some w529_0)
      [BeamCXRate 1 w529_0 (Adf12Data "/data/file_a.dat" (8, 7)) true;
       BeamCXRate 2 w529_0 (Adf12Data "/data/file_b.dat" (8, 7)) true].
Proof.
  assert (beam_cx_rate read_adf12 (Surface := FileSurface) adas_isotope_wavelength
            (SIsotope deuterium) (SIsotope carbon12) 6 (8, 7)
          = Ok [BeamCXRate 1 w529_0 (Adf12Data "/data/file_a.dat" (8, 7)) true;
                BeamCXRate 2 w529_0 (Adf12Data "/data/file_b.dat" (8, 7)) true]) as Hcall
    by (vm_compute; reflexivity).
  assert (config_wavelength (_config adas_isotope_wavelength) (SIsotope carbon12) (6 - 1)
            (8, 7) = Some w529_0) as Hw by (vm_compute; reflexivity).
  split; [exact Hcall|]. split; [exact Hw|].
  exact (proj1 (beam_cx_rate_isotope_wavelength read_adf12 adas_isotope_wavelength
                  (SIsotope deuterium) carbon12 6 (8, 7) _ Hcall) w529_0 Hw).
Defined.

(** ** The [config] property and the stored dictionaries *)

Section StoreFacts.

Implicit Types (h : Store.heap) (v x : Store.value) (k : Store.key).
Implicit Types (l : Store.loc).

Lemma bind_Ok {A B} (r : result A) (f : A → result B) b :
  bind r f = Ok b → ∃ a, r = Ok a ∧ f a = Ok b.
Proof. destruct r as [a|e]; simpl; [by eauto|discriminate]. Qed.

Lemma getitem_Ok h v k x :
  Store.getitem h v k = Ok x →
  ∃ l d, v = Store.VDict l ∧ h !! l = Some d ∧ d !! k = Some x.
Proof.
  destruct v as [l|w]; simpl; [|discriminate].
  destruct (h !! l) as [d|] eqn:Hl; [|discriminate].
  destruct (d !! k) as [y|] eqn:Hk; [|discriminate].
  intros [= ->]. by exists l, d.
Qed.

Lemma getitem_lookup h l d k x :
  h !! l = Some d → d !! k = Some x → Store.getitem h (Store.VDict l) k = Ok x.
Proof. intros Hl Hk. simpl. by rewrite Hl, Hk. Qed.

(** The copy is a new object: no dictionary of the store has its
    identity. *)
Lemma dict_copy_fresh h l : h !! (Store.dict_copy h l).1 = None.
Proof. simpl. apply not_elem_of_dom, is_fresh. Qed.

(** Reading through an existing dictionary is not affected by the copy. *)
Lemma getitem_dict_copy h l v k x :
  Store.getitem h v k = Ok x → Store.getitem (Store.dict_copy h l).2 v k = Ok x.
Proof.
  intros (l' & d & -> & Hl' & Hk)%getitem_Ok.
  apply getitem_lookup with d; [|done]. simpl.
  rewrite lookup_insert_ne; [done|].
  intros <-. pose proof (dict_copy_fresh h l) as Hf. simpl in Hf. congruence.
Qed.

(** The copy holds the items of the original. *)
Lemma getitem_of_copy h l k x :
  Store.getitem h (Store.VDict l) k = Ok x →
  Store.getitem (Store.dict_copy h l).2 (Store.VDict (Store.dict_copy h l).1) k = Ok x.
Proof.
  intros (l' & d & [= <-] & Hl & Hk)%getitem_Ok.
  apply getitem_lookup with d; [|done]. simpl.
  by rewrite lookup_insert_eq, Hl.
Qed.

(** A write under one key leaves every other key of every dictionary as it
    was. *)
Lemma getitem_setitem_ne h v k x h' v' k' :
  Store.setitem h v k x = Ok h' → k ≠ k' → Store.getitem h' v' k' = Store.getitem h v' k'.
Proof.
  destruct v as [l|w]; simpl; [|discriminate].
  destruct (h !! l) as [d|] eqn:Hl; [|discriminate].
  intros [= <-] Hne. destruct v' as [l'|w']; simpl; [|done].
  destruct (decide (l = l')) as [<-|Hl'].
  - by rewrite lookup_insert_eq, Hl, lookup_insert_ne.
  - by rewrite lookup_insert_ne.
Qed.

Lemma getitem_setitem_eq h v k x h' :
  Store.setitem h v k x = Ok h' → Store.getitem h' v k = Ok x.
Proof.
  destruct v as [l|w]; simpl; [|discriminate].
  destruct (h !! l) as [d|] eqn:Hl; [|discriminate].
  intros [= <-]. by rewrite !lookup_insert_eq.
Qed.

(** A write to a dictionary leaves every other dictionary as it was. *)
Lemma getitem_setitem_other h l k x h' l' k' :
  Store.setitem h (Store.VDict l) k x = Ok h' → l ≠ l' →
  Store.getitem h' (Store.VDict l') k' = Store.getitem h (Store.VDict l') k'.
Proof.
  simpl. destruct (h !! l) as [d|] eqn:Hl; [|discriminate].
  intros [= <-] Hne. by rewrite lookup_insert_ne.
Qed.

(** What the copy protects: a write to the dictionary that [config]
    returns is not seen through [self._config], nor through any
    dictionary that existed before the call. *)
Lemma config_top_level_write_is_private h self c h1 k x h2 l k' :
  Store.config h self = (Store.VDict c, h1) →
  Store.setitem h1 (Store.VDict c) k x = Ok h2 →
  is_Some (h !! l) →
  Store.getitem h2 (Store.VDict l) k' = Store.getitem h (Store.VDict l) k'.
Proof.
  unfold Store.config. intros [= <- <-] Hset [d Hl].
  assert (fresh (dom h) ≠ l) as Hne.
  { intros <-. pose proof (dict_copy_fresh h (Store._config self)) as Hf. simpl in Hf.
    congruence. }
  rewrite (getitem_setitem_other _ _ _ _ _ _ _ Hset Hne). simpl.
  by rewrite lookup_insert_ne.
Qed.

(** C4 on the code: the dictionary that [config] returns shares its
    nested dictionaries with the stored one.  Whenever a wavelength entry
    is configured, a caller that assigns to that entry through the
    returned dictionary changes what [wavelength] returns afterwards. *)
Theorem config_nested_write_reaches_stored_tree h self ion ionisation transition w0 w1 :
  Store.config_wavelength h self ion ionisation transition = Ok (Store.VFloat w0) →
  ∃ c h1 h2,
    Store.config h self = (c, h1)
    ∧ Store.wavelength h1 self ion ionisation transition = Ok (Store.VFloat w0)
    ∧ Store.assign_wavelength h1 c ion ionisation transition w1 = Ok h2
    ∧ Store.wavelength h2 self ion ionisation transition = Ok (Store.VFloat w1).
Proof.
  intros Hcfg. unfold Store.config_wavelength in Hcfg.
  apply bind_Ok in Hcfg as (v1 & H1 & Hcfg).
  apply bind_Ok in Hcfg as (v2 & H2 & Hcfg).
  apply bind_Ok in Hcfg as (v3 & H3 & H4).
  pose (c := (Store.dict_copy h (Store._config self)).1).
  pose (h1 := (Store.dict_copy h (Store._config self)).2).
  assert (Store.getitem h1 (Store.VDict (Store._config self)) (Store.KStr "wavelength")
          = Ok v1) as H1' by by apply getitem_dict_copy.
  assert (Store.getitem h1 (Store.VDict c) (Store.KStr "wavelength") = Ok v1) as H1c
    by by apply getitem_of_copy.
  assert (Store.getitem h1 v1 (Store.KSpecies ion) = Ok v2) as H2'
    by by apply getitem_dict_copy.
  assert (Store.getitem h1 v2 (Store.KInt ionisation) = Ok v3) as H3'
    by by apply getitem_dict_copy.
  assert (Store.getitem h1 v3 (Store.KTuple transition) = Ok (Store.VFloat w0)) as H4'
    by by apply getitem_dict_copy.
  destruct (getitem_Ok _ _ _ _ H4') as (l3 & d3 & -> & Hl3 & _).
  assert (Store.setitem h1 (Store.VDict l3) (Store.KTuple transition) (Store.VFloat w1)
          = Ok (<[l3 := <[Store.KTuple transition := Store.VFloat w1]> d3]> h1)) as Hset.
  { simpl. by rewrite Hl3. }
  eexists (Store.VDict c), h1, _. split_and!.
  - done.
  - unfold Store.wavelength, Store.config_wavelength.
    rewrite H1'. simpl. rewrite H2'. simpl. rewrite H3'. simpl.
    fold (Store.getitem h1 (Store.VDict l3) (Store.KTuple transition)).
    by rewrite H4'.
  - unfold Store.assign_wavelength. rewrite H1c. simpl. rewrite H2'. simpl.
    rewrite H3'. simpl. exact Hset.
  - unfold Store.wavelength, Store.config_wavelength.
    rewrite (getitem_setitem_ne _ _ _ _ _ _ _ Hset), H1' by done. simpl.
    rewrite (getitem_setitem_ne _ _ _ _ _ _ _ Hset), H2' by done. simpl.
    rewrite (getitem_setitem_ne _ _ _ _ _ _ _ Hset), H3' by done. simpl.
    fold (Store.getitem (<[l3 := <[Store.KTuple transition := Store.VFloat w1]> d3]> h1)
            (Store.VDict l3) (Store.KTuple transition)).
    by rewrite (getitem_setitem_eq _ _ _ _ _ Hset).
Qed.

(** On a store that holds the configuration [cfg], the subscript chain
    finds what the chain on [cfg] finds, and raises [KeyError] where that
    one has no entry. *)
Lemma config_wavelength_refines h self cfg ion ionisation transition :
  Store.holds_config h (Store._config self) cfg →
  match config_wavelength cfg ion ionisation transition with
  | Some w =>
      Store.config_wavelength h self ion ionisation transition = Ok (Store.VFloat w)
  | None =>
      ∃ k, Store.config_wavelength h self ion ionisation transition
           = Raise (Store.KeyError k)
  end.
Proof.
  intros (d0 & Hd0 & Htop).
  unfold config_wavelength, Store.config_wavelength. simpl. rewrite Hd0.
  destruct (cfg_wavelength cfg) as [m1|]; simpl; [|rewrite Htop; by eauto].
  destruct Htop as (l1 & -> & d1 & Hd1 & H1). simpl. rewrite Hd1.
  specialize (H1 ion). destruct (m1 !! ion) as [m2|]; simpl; [|rewrite H1; by eauto].
  destruct H1 as (l2 & -> & d2 & Hd2 & H2). simpl. rewrite Hd2.
  specialize (H2 ionisation).
  destruct (m2 !! ionisation) as [m3|]; simpl; [|rewrite H2; by eauto].
  destruct H2 as (l3 & -> & d3 & Hd3 & H3). simpl. rewrite Hd3, H3.
  destruct (m3 !! transition) as [w|]; simpl; by eauto.
Qed.

(** The method on the store refines the method on the configuration
    value. *)
Lemma wavelength_refines h self data_path cfg permit ion ionisation transition :
  Store.holds_config h (Store._config self) cfg →
  Store.wavelength h self ion ionisation transition
  = match wavelength (mkOpenADAS data_path cfg permit)
            ion ionisation transition with
    | Ok w => Ok (Store.VFloat w)
    | Raise e => Raise e
    end.
Proof.
  intros Hcfg. unfold Store.wavelength, wavelength. simpl.
  pose proof (config_wavelength_refines h self cfg ion ionisation transition Hcfg) as H.
  destruct (config_wavelength cfg ion _ _) as [w|]; [by rewrite H|].
  destruct H as [k ->]. simpl.
  destruct ion as [e|iso]; [done|].
  pose proof (config_wavelength_refines h self cfg (SElement (element iso))
                ionisation transition Hcfg) as H.
  destruct (config_wavelength cfg (SElement _) _ _) as [w|]; [by rewrite H|].
  by destruct H as [k' ->].
Qed.

(** ** What the copies keep *)

Lemma getitem_value_in_store h v k x :
  store_closed h → Store.getitem h v k = Ok x → value_in_store h x.
Proof.
  intros Hclosed (l & d & -> & Hl & Hk)%getitem_Ok.
  destruct x as [l'|w]; simpl; [|done]. by eapply Hclosed.
Qed.

Lemma getitem_agree h h' v k :
  store_agree h h' → value_in_store h v → Store.getitem h' v k = Store.getitem h v k.
Proof. intros Hagree Hv. destruct v as [l|w]; [by apply Hagree|done]. Qed.

Lemma config_wavelength_agree h h' l l' dp dp' pe pe' ion ionisation transition :
  store_closed h → store_agree h h' →
  (∀ k, Store.getitem h' (Store.VDict l') k = Store.getitem h (Store.VDict l) k) →
  Store.config_wavelength h' (Store.mkOpenADAS dp' l' pe') ion ionisation transition
  = Store.config_wavelength h (Store.mkOpenADAS dp l pe) ion ionisation transition.
Proof.
  intros Hclosed Hagree Htop. unfold Store.config_wavelength.
  cbn [Store._config]. rewrite Htop.
  destruct (Store.getitem h (Store.VDict l) _) as [v1|e] eqn:H1; [|done].
  cbn [bind]. apply getitem_value_in_store in H1; [|done].
  rewrite (getitem_agree h h' v1) by done.
  destruct (Store.getitem h v1 _) as [v2|e] eqn:H2; [|done].
  cbn [bind]. apply getitem_value_in_store in H2; [|done].
  rewrite (getitem_agree h h' v2) by done.
  destruct (Store.getitem h v2 _) as [v3|e] eqn:H3; [|done].
  cbn [bind]. apply getitem_value_in_store in H3; [|done].
  by rewrite (getitem_agree h h' v3).
Qed.

Lemma wavelength_agree h h' l l' dp dp' pe pe' ion ionisation transition :
  store_closed h → store_agree h h' →
  (∀ k, Store.getitem h' (Store.VDict l') k = Store.getitem h (Store.VDict l) k) →
  Store.wavelength h' (Store.mkOpenADAS dp' l' pe') ion ionisation transition
  = Store.wavelength h (Store.mkOpenADAS dp l pe) ion ionisation transition.
Proof.
  intros Hclosed Hagree Htop. unfold Store.wavelength.
  rewrite (config_wavelength_agree h h' l l' dp dp' pe pe' ion) by done.
  destruct (Store.config_wavelength h _ ion _ _) as [w|e]; [done|].
  destruct (Store.is_KeyError e); [|done]. destruct ion as [el|iso]; [done|].
  by rewrite (config_wavelength_agree h h' l l' dp dp' pe pe' (SElement (element iso))).
Qed.

Lemma dict_copy_agree h l : store_agree h (Store.dict_copy h l).2.
Proof.
  intros l' k [d Hl']. simpl. rewrite lookup_insert_ne; [done|].
  intros <-. pose proof (dict_copy_fresh h l) as Hf. simpl in Hf. congruence.
Qed.

Lemma dict_copy_items h l k :
  is_Some (h !! l) →
  Store.getitem (Store.dict_copy h l).2 (Store.VDict (Store.dict_copy h l).1) k
  = Store.getitem h (Store.VDict l) k.
Proof. intros [d Hl]. simpl. by rewrite lookup_insert_eq, Hl. Qed.

(** X9: the copy of the constructor and the copy of the [config] property
    keep the content: on a store of live objects, the object built from a
    dictionary answers [wavelength] as that dictionary reads, and both the
    object and a second object placed on the dictionary that [config]
    returns answer as the first did before the call. *)
Theorem copies_answer_alike h l :
  store_closed h → is_Some (h !! l) →
  (∀ data_path permit self h1,
     Store.__init__ h data_path l permit = (self, h1) →
     ∀ ion ionisation transition,
       Store.wavelength h1 self ion ionisation transition
       = Store.wavelength h (Store.mkOpenADAS data_path l permit) ion ionisation transition)
  ∧ (∀ self c h1,
       Store._config self = l →
       Store.config h self = (Store.VDict c, h1) →
       ∀ ion ionisation transition,
         Store.wavelength h1 self ion ionisation transition
         = Store.wavelength h self ion ionisation transition
         ∧ Store.wavelength h1
             (Store.mkOpenADAS (Store._data_path self) c (Store._permit_extrapolation self))
             ion ionisation transition
           = Store.wavelength h self ion ionisation transition).
Proof.
  intros Hclosed Hl. split.
  - intros data_path permit self h1. unfold Store.__init__.
    intros [= <- <-] ion ionisation transition.
    apply wavelength_agree; [done|apply dict_copy_agree|].
    intros k. by apply dict_copy_items.
  - intros [dp l0 pe] c h1. simpl. intros ->. unfold Store.config. simpl.
    intros [= <- <-] ion ionisation transition. split.
    + apply wavelength_agree; [done|apply dict_copy_agree|].
      intros k. by apply (dict_copy_agree h l).
    + apply wavelength_agree; [done|apply dict_copy_agree|].
      intros k. by apply dict_copy_items.
Qed.

(** X10: a write under a top-level key of the dictionary that [config]
    returns stays with the caller: on a store of live objects, whatever
    key is written and whatever value, the object answers every
    [wavelength] query as before. *)
Theorem config_top_level_write_keeps_answers h self c h1 k x h2 :
  store_closed h → is_Some (h !! Store._config self) →
  Store.config h self = (Store.VDict c, h1) →
  Store.setitem h1 (Store.VDict c) k x = Ok h2 →
  ∀ ion ionisation transition,
    Store.wavelength h2 self ion ionisation transition
    = Store.wavelength h self ion ionisation transition.
Proof.
  intros Hclosed Hcfg Hcopy Hset. destruct self as [dp l pe]. simpl in Hcfg.
  assert (store_agree h h2) as Hagree.
  { intros l' k' Hl'. by eapply config_top_level_write_is_private. }
  intros ion ionisation transition.
  apply wavelength_agree; [done..|]. intros k'. by apply Hagree.
Qed.

(** X11: each call of [config] hands out a new dictionary: two calls in a
    row return two dictionaries that differ from each other and from the
    stored one, and the stored dictionary object is left as it was. *)
Theorem config_returns_new_dictionary h self c h1 c' h2 :
  is_Some (h !! Store._config self) →
  Store.config h self = (Store.VDict c, h1) →
  Store.config h1 self = (Store.VDict c', h2) →
  c ≠ Store._config self ∧ c' ≠ Store._config self ∧ c ≠ c'
  ∧ h2 !! Store._config self = h !! Store._config self
  ∧ h2 !! c = h !! Store._config self ∧ h2 !! c' = h !! Store._config self.
Proof.
  intros [d Hd]. unfold Store.config. intros [= <- <-] [= <- <-].
  pose proof (dict_copy_fresh h (Store._config self)) as Hf1.
  pose proof (dict_copy_fresh (Store.dict_copy h (Store._config self)).2
                (Store._config self)) as Hf2.
  simpl in *. set (c := fresh (dom h)) in *.
  set (c' := fresh (dom (<[c:=default ∅ (h !! Store._config self)]> h))) in *.
  assert (c ≠ Store._config self) as Hc by congruence.
  assert (c' ≠ c) as Hcc' by (intros Heq; rewrite Heq, lookup_insert_eq in Hf2; done).
  assert (c' ≠ Store._config self) as Hc'.
  { intros Heq. rewrite Heq, lookup_insert_ne, Hd in Hf2; done. }
  split_and!; [done..| | |].
  - by rewrite !lookup_insert_ne.
  - by rewrite lookup_insert_ne, lookup_insert_eq, Hd.
  - by rewrite lookup_insert_eq, lookup_insert_ne, Hd.
Qed.

(** X12: only [KeyError] is caught.  When a wavelength sits where a
    dictionary is expected, at any of the three levels above the entry, the
    query raises the [TypeError] of the subscript on it: no [RuntimeError]
    is made of it and the element of an isotope is not tried. *)
Theorem wavelength_TypeError_not_caught h self ion ionisation transition w :
  Store.getitem h (Store.VDict (Store._config self)) (Store.KStr "wavelength")
  = Ok (Store.VFloat w)
  ∨ (∃ d, Store.getitem h (Store.VDict (Store._config self)) (Store.KStr "wavelength")
          = Ok d
          ∧ (Store.getitem h d (Store.KSpecies ion) = Ok (Store.VFloat w)
             ∨ ∃ d', Store.getitem h d (Store.KSpecies ion) = Ok d'
                     ∧ Store.getitem h d' (Store.KInt ionisation) = Ok (Store.VFloat w))) →
  Store.wavelength h self ion ionisation transition = Raise Store.TypeError.
Proof.
  unfold Store.wavelength, Store.config_wavelength.
  intros [H|(d & H & [H'|(d' & H' & H'')])]; rewrite H; cbn [bind]; [done| |].
  - by rewrite H'.
  - rewrite H'. cbn [bind]. by rewrite H''.
Qed.

End StoreFacts.

(** The scenario of C4: an object built on [store_c5], a caller that reads
    [config] and assigns [0] to the carbon entry through it. *)
Lemma config_nested_write_reaches_stored_tree_witness :
  let self := (Store.__init__ store_c5 "/data" 1%positive false).1 in
  let h := (Store.__init__ store_c5 "/data" 1%positive false).2 in
  Store.config_wavelength h self (SElement carbon) 5 (8, 7)
  = Ok (Store.VFloat (Qmake 5291 10))
  ∧ ∃ c h1 h2,
      Store.config h self = (c, h1)
      ∧ Store.wavelength h1 self (SElement carbon) 5 (8, 7)
        = Ok (Store.VFloat (Qmake 5291 10))
      ∧ Store.assign_wavelength h1 c (SElement carbon) 5 (8, 7) (Qmake 0 1) = Ok h2
      ∧ Store.wavelength h2 self (SElement carbon) 5 (8, 7) = Ok (Store.VFloat (Qmake 0 1)).
Proof.
  intros self h.
  assert (Store.config_wavelength h self (SElement carbon) 5 (8, 7)
          = Ok (Store.VFloat (Qmake 5291 10))) as H by (vm_compute; reflexivity).
  split; [exact H|].
  exact (config_nested_write_reaches_stored_tree h self (SElement carbon) 5 (8, 7)
           (Qmake 5291 10) (Qmake 0 1) H).
Defined.

Example config_write_scenario_answers :
  config_write_scenario
  = (Ok (Store.VFloat (Qmake 5291 10)), Ok (Store.VFloat (Qmake 0 1))).
Proof. vm_compute. reflexivity. Qed.

(** ** The data directory *)

Section DataPathFacts.

Context {FS : Type}.
Variable expanduser : string → string.
Variable isdir : FS → string → bool.
Variable makedirs : FS → string → result unit * FS.

(** What the source relies on: a directory that [makedirs] reports as made
    is there afterwards, and [makedirs] removes none, also when it
    raises. *)
Hypothesis makedirs_isdir :
  ∀ fs p fs', makedirs fs p = (Ok (), fs') → isdir fs' p = true.
Hypothesis makedirs_keeps :
  ∀ fs p r fs' q, makedirs fs p = (r, fs') → isdir fs q = true → isdir fs' q = true.

Local Abbreviation home := (expanduser "~/.cherab/openadas").

Ltac step_makedirs H :=
  match goal with
  | |- context [makedirs ?fs ?p] =>
      destruct (makedirs fs p) as [[[]|?] ?] eqn:H; cbn [and_then]
  end.

Lemma setup_data_path_Ok fs p fs' :
  _setup_data_path expanduser isdir makedirs fs = (Ok p, fs') →
  p = home ∧ isdir fs' home = true.
Proof.
  unfold _setup_data_path. destruct (isdir fs home) eqn:Hdir.
  { by intros [= <- <-]. }
  step_makedirs H0; [|discriminate].
  step_makedirs H1; [|discriminate].
  step_makedirs H2; [|discriminate].
  step_makedirs H3; [|discriminate].
  step_makedirs H4; [|discriminate].
  intros [= <- <-]. split; [done|].
  pose proof (makedirs_isdir _ _ _ H0) as D0.
  pose proof (λ q, makedirs_keeps _ _ _ _ q H1) as K1.
  pose proof (λ q, makedirs_keeps _ _ _ _ q H2) as K2.
  pose proof (λ q, makedirs_keeps _ _ _ _ q H3) as K3.
  pose proof (λ q, makedirs_keeps _ _ _ _ q H4) as K4.
  auto 10.
Qed.

(** X13: when [_setup_data_path] returns, it returns the expanded
    [~/.cherab/openadas], that directory exists, and no directory that
    existed before is gone; when the directory was not there before, its
    four subdirectories [adf12], [adf15], [adf21] and [adf22] exist as
    well. *)
Theorem setup_data_path_makes_directories fs p fs' :
  _setup_data_path expanduser isdir makedirs fs = (Ok p, fs') →
  p = home
  ∧ isdir fs' home = true
  ∧ (∀ q, isdir fs q = true → isdir fs' q = true)
  ∧ (isdir fs home = false →
     isdir fs' (path_join home "adf12") = true
     ∧ isdir fs' (path_join home "adf15") = true
     ∧ isdir fs' (path_join home "adf21") = true
     ∧ isdir fs' (path_join home "adf22") = true).
Proof.
  unfold _setup_data_path. destruct (isdir fs home) eqn:Hdir.
  { intros [= <- <-]. by split_and!. }
  step_makedirs H0; [|discriminate].
  step_makedirs H1; [|discriminate].
  step_makedirs H2; [|discriminate].
  step_makedirs H3; [|discriminate].
  step_makedirs H4; [|discriminate].
  intros [= <- <-].
  pose proof (makedirs_isdir _ _ _ H0) as D0.
  pose proof (makedirs_isdir _ _ _ H1) as D1.
  pose proof (makedirs_isdir _ _ _ H2) as D2.
  pose proof (makedirs_isdir _ _ _ H3) as D3.
  pose proof (makedirs_isdir _ _ _ H4) as D4.
  pose proof (λ q, makedirs_keeps _ _ _ _ q H0) as K0.
  pose proof (λ q, makedirs_keeps _ _ _ _ q H1) as K1.
  pose proof (λ q, makedirs_keeps _ _ _ _ q H2) as K2.
  pose proof (λ q, makedirs_keeps _ _ _ _ q H3) as K3.
  pose proof (λ q, makedirs_keeps _ _ _ _ q H4) as K4.
  split_and!; [done| | |intros _; split_and!]; auto 10.
Qed.

(** X14: a data directory that exists is left as found: nothing is made,
    not even a subdirectory that is missing.  So [_setup_data_path] is
    idempotent: after a call that returned, the next call returns the same
    path and changes nothing. *)
Theorem setup_data_path_idempotent fs :
  (isdir fs home = true → _setup_data_path expanduser isdir makedirs fs = (Ok home, fs))
  ∧ (∀ p fs', _setup_data_path expanduser isdir makedirs fs = (Ok p, fs') →
              _setup_data_path expanduser isdir makedirs fs' = (Ok p, fs')).
Proof.
  assert (∀ fs0, isdir fs0 home = true →
                 _setup_data_path expanduser isdir makedirs fs0 = (Ok home, fs0))
    as Hfound.
  { intros fs0 H. unfold _setup_data_path. by rewrite H. }
  split; [apply Hfound|].
  intros p fs' Hsetup.
  destruct (setup_data_path_Ok fs p fs' Hsetup) as [-> Hdir].
  by apply Hfound.
Qed.

(** X15: a set-up that made the data directory and then failed on a
    subdirectory leaves the data directory behind; the next call finds it,
    returns at once and makes none of the subdirectories that are still
    missing. *)
Theorem setup_data_path_after_failure fs fs1 e fs' :
  isdir fs home = false →
  makedirs fs home = (Ok (), fs1) →
  _setup_data_path expanduser isdir makedirs fs = (Raise e, fs') →
  isdir fs' home = true ∧ _setup_data_path expanduser isdir makedirs fs' = (Ok home, fs').
Proof.
  intros Hdir H0 Hfail.
  assert (isdir fs' home = true) as Hhome.
  { unfold _setup_data_path in Hfail. rewrite Hdir, H0 in Hfail. cbn [and_then] in Hfail.
    pose proof (makedirs_isdir _ _ _ H0) as Hd.
    revert Hfail.
    step_makedirs H1; pose proof (λ q, makedirs_keeps _ _ _ _ q H1) as K1;
      [|intros [= <- <-]; auto].
    step_makedirs H2; pose proof (λ q, makedirs_keeps _ _ _ _ q H2) as K2;
      [|intros [= <- <-]; auto].
    step_makedirs H3; pose proof (λ q, makedirs_keeps _ _ _ _ q H3) as K3;
      [|intros [= <- <-]; auto].
    step_makedirs H4; pose proof (λ q, makedirs_keeps _ _ _ _ q H4) as K4;
      [|intros [= <- <-]; auto 6].
    discriminate. }
  split; [done|]. unfold _setup_data_path. by rewrite Hhome.
Qed.

End DataPathFacts.

Section InitFacts.

Context {FS : Type}.
Variable expanduser : string → string.
Variable isdir : FS → string → bool.
Variable makedirs : FS → string → result unit * FS.


(** X16: the constructor with a data path that is not empty takes it as it
    is and does not touch the file system; with the empty string it does
    what it does without the argument: the object is built exactly when
    [_setup_data_path] returns, on the path it returns, and an exception
    of the set-up is the constructor's.  The object holds the
    configuration and the extrapolation flag given. *)
Theorem init_data_path fs config permit :
  (∀ c p, __init__ expanduser isdir makedirs fs (Some (String c p)) config permit
          = (Ok (mkOpenADAS (String c p) config permit), fs))
  ∧ __init__ expanduser isdir makedirs fs (Some "") config permit
    = __init__ expanduser isdir makedirs fs None config permit
  ∧ (∀ self fs',
       __init__ expanduser isdir makedirs fs None config permit = (Ok self, fs')
       ↔ _setup_data_path expanduser isdir makedirs fs = (Ok (data_path self), fs')
         ∧ _config self = config ∧ _permit_extrapolation self = permit)
  ∧ (∀ e fs', __init__ expanduser isdir makedirs fs None config permit = (Raise e, fs')
              ↔ _setup_data_path expanduser isdir makedirs fs = (Raise e, fs')).
Proof.
  split_and!; [done..| |].
  - intros self fs'. unfold __init__.
    destruct (_setup_data_path expanduser isdir makedirs fs) as [[p|e] fs0]; cbn [and_then]; split.
    + intros [= <- <-]. done.
    + destruct self as [dp cfg pe]. simpl. intros ([= -> ->] & -> & ->). done.
    + discriminate.
    + intros [[=] _].
  - intros e fs'. unfold __init__.
    destruct (_setup_data_path expanduser isdir makedirs fs) as [[p|e0] fs0];
      cbn [and_then]; split; congruence.
Qed.

End InitFacts.

(** ** The further theorems at the scenarios *)


Lemma beam_cx_rate_nil_iff_witness :
  beam_cx_rate read_adf12 (Surface := FileSurface) adas_cxs_no_files
    (SIsotope deuterium) (SIsotope carbon12) 6 (8, 7) = Ok [].
Proof.
  apply (proj2 (beam_cx_rate_nil_iff read_adf12 adas_cxs_no_files
                  (SIsotope deuterium) (SIsotope carbon12) 6 (8, 7))).
  split; [exists w529_1|]; vm_compute; reflexivity.
Defined.

Lemma beam_cx_rate_first_failure_witness :
  beam_cx_rate file_b_absent_adf12 (Surface := FileSurface) adas_full
    (SIsotope deuterium) (SElement carbon) 6 (8, 7)
  = Raise (Exc "FileNotFoundError" [ArgStr "/data/file_b.dat"]).
Proof.
  apply (beam_cx_rate_first_failure file_b_absent_adf12 adas_full
           (SIsotope deuterium) (SElement carbon) 6 (8, 7) w529_1
           [(1, "file_a.dat")] 2 "file_b.dat" []).
  - vm_compute. reflexivity.
  - vm_compute. reflexivity.
  - intros m f Hin. apply list_elem_of_singleton in Hin as [= -> ->].
    eexists. vm_compute. reflexivity.
  - vm_compute. reflexivity.
Defined.


Lemma rates_carry_permit_extrapolation_witness :
  Forall (λ r : Rate FileCurve FileSurface, rate_extrapolate r = true)
    [BeamCXRate 1 w529_1 (Adf12Data "/data/file_a.dat" (8, 7)) true;
     BeamCXRate 2 w529_1 (Adf12Data "/data/file_b.dat" (8, 7)) true]
  ∧ rate_extrapolate
      (BeamStoppingRate (Curve := FileCurve) (Adf21Data "/data/bms.dat") true) = true.
Proof.
  destruct (rates_carry_permit_extrapolation read_adf12 read_adf15 read_adf21 read_adf22
              adas_full) as (Hcx & Hbms & _).
  split.
  - apply (Hcx (SIsotope deuterium) (SElement carbon) 6 (8, 7)).
    vm_compute. reflexivity.
  - apply (Hbms (SIsotope deuterium) (SIsotope carbon12) 6).
    vm_compute. reflexivity.
Defined.

Lemma reader_exception_is_raised_witness :
  beam_stopping_rate absent_adf21 (Curve := FileCurve) adas_full
    (SIsotope deuterium) (SIsotope carbon12) 6
  = Raise (Exc "FileNotFoundError" [ArgStr "/data/bms.dat"])
  ∧ beam_population_rate absent_adf22 (Curve := FileCurve) adas_full
      (SIsotope deuterium) 2 (SIsotope carbon12) 6
    = Raise (Exc "FileNotFoundError" [ArgStr "/data/bmp.dat"])
  ∧ beam_emission_rate absent_adf22 (Curve := FileCurve) adas_full
      (SIsotope deuterium) (SIsotope carbon12) 6 (3, 2)
    = Raise (Exc "FileNotFoundError" [ArgStr "/data/bme.dat"])
  ∧ impact_excitation_rate absent_adf15 (Surface := FileSurface) adas_full
      (SIsotope carbon12) 5 (8, 7)
    = Raise (Exc "FileNotFoundError" [ArgStr "/data/pec.dat"])
  ∧ recombination_rate absent_adf15 (Surface := FileSurface) adas_full
      (SIsotope carbon12) 5 (8, 7)
    = Raise (Exc "FileNotFoundError" [ArgStr "/data/pec.dat"]).
Proof.
  destruct (reader_exception_is_raised absent_adf15 absent_adf21 absent_adf22 adas_full
              (Exc "FileNotFoundError" [ArgStr "/data/bms.dat"])) as (Hbms & _).
  destruct (reader_exception_is_raised absent_adf15 absent_adf21 absent_adf22 adas_full
              (Exc "FileNotFoundError" [ArgStr "/data/bmp.dat"])) as (_ & Hbmp & _).
  destruct (reader_exception_is_raised absent_adf15 absent_adf21 absent_adf22 adas_full
              (Exc "FileNotFoundError" [ArgStr "/data/bme.dat"])) as (_ & _ & Hbme & _).
  destruct (reader_exception_is_raised absent_adf15 absent_adf21 absent_adf22 adas_full
              (Exc "FileNotFoundError" [ArgStr "/data/pec.dat"]))
    as (_ & _ & _ & Hexc & Hrec).
  split_and!.
  - apply (Hbms _ _ _ "bms.dat"); vm_compute; reflexivity.
  - apply (Hbmp _ _ _ _ "bmp.dat"); vm_compute; reflexivity.
  - apply (Hbme _ _ _ _ (Qmake 65628 100) "bme.dat"); vm_compute; reflexivity.
  - apply (Hexc _ _ _ w529_1 "pec.dat" 3); vm_compute; reflexivity.
  - apply (Hrec _ _ _ w529_1 "pec.dat" 3); vm_compute; reflexivity.
Defined.


Lemma wavelength_message_inj_witness :
  wavelength_message "C" (6 - 1) (8, 7) = wavelength_message "C" 5 (4 + 4, 7)
  ∧ 6 - 1 = 5 ∧ (8, 7) = (4 + 4, 7).
Proof.
  assert (wavelength_message "C" (6 - 1) (8, 7) = wavelength_message "C" 5 (4 + 4, 7))
    as H by reflexivity.
  split; [exact H|].
  exact (wavelength_message_inj "C" (6 - 1) (8, 7) 5 (4 + 4, 7) H).
Defined.

Lemma store_c5_closed : store_closed store_c5.
Proof.
  intros l d k l' Hl Hk. unfold store_c5 in *.
  repeat (apply lookup_insert_Some in Hl as [[? ?]|[? Hl]]);
    try (apply lookup_singleton_Some in Hl as [? ?]);
    try (rewrite lookup_empty in Hl; discriminate Hl);
    subst; apply lookup_singleton_Some in Hk as [_ Hk]; simplify_eq;
    by simplify_map_eq.
Qed.

Lemma store_c5_config : is_Some (store_c5 !! 1%positive).
Proof. unfold store_c5. by simplify_map_eq. Qed.

Lemma copies_answer_alike_witness :
  let built := Store.__init__ store_c5 "/data" 1%positive false in
  Store.wavelength built.2 built.1 (SElement carbon) 5 (8, 7)
  = Store.wavelength store_c5 (Store.mkOpenADAS "/data" 1%positive false)
      (SElement carbon) 5 (8, 7).
Proof.
  intros built.
  apply (proj1 (copies_answer_alike store_c5 1%positive store_c5_closed store_c5_config)
           "/data" false built.1 built.2 eq_refl).
Defined.

Lemma config_top_level_write_keeps_answers_witness :
  let self := Store.mkOpenADAS "/data" 1%positive false in
  let c := (Store.dict_copy store_c5 1%positive).1 in
  let h1 := (Store.dict_copy store_c5 1%positive).2 in
  let h2 := <[c := <[Store.KStr "wavelength" := Store.VFloat (Qmake 0 1)]>
                     (default ∅ (store_c5 !! 1%positive))]> h1 in
  Store.config store_c5 self = (Store.VDict c, h1)
  ∧ Store.setitem h1 (Store.VDict c) (Store.KStr "wavelength") (Store.VFloat (Qmake 0 1))
    = Ok h2
  ∧ Store.wavelength h2 self (SElement carbon) 5 (8, 7)
    = Store.wavelength store_c5 self (SElement carbon) 5 (8, 7).
Proof.
  intros self c h1 h2.
  assert (Store.config store_c5 self = (Store.VDict c, h1)) as Hcopy by reflexivity.
  assert (Store.setitem h1 (Store.VDict c) (Store.KStr "wavelength")
            (Store.VFloat (Qmake 0 1)) = Ok h2) as Hset.
  { unfold h1, h2, c. simpl. by rewrite lookup_insert_eq. }
  split; [exact Hcopy|]. split; [exact Hset|].
  exact (config_top_level_write_keeps_answers store_c5 self c h1 _ _ h2
           store_c5_closed store_c5_config Hcopy Hset (SElement carbon) 5 (8, 7)).
Defined.

Lemma config_returns_new_dictionary_witness :
  let self := Store.mkOpenADAS "/data" 1%positive false in
  let first := Store.dict_copy store_c5 1%positive in
  let second := Store.dict_copy first.2 1%positive in
  first.1 ≠ 1%positive ∧ second.1 ≠ 1%positive ∧ first.1 ≠ second.1
  ∧ second.2 !! 1%positive = store_c5 !! 1%positive
  ∧ second.2 !! first.1 = store_c5 !! 1%positive
  ∧ second.2 !! second.1 = store_c5 !! 1%positive.
Proof.
  intros self first second.
  exact (config_returns_new_dictionary store_c5 self first.1 first.2 second.1 second.2
           store_c5_config eq_refl eq_refl).
Defined.

Lemma wavelength_TypeError_not_caught_witness :
  Store.wavelength store_malformed (Store.mkOpenADAS "/data" 1%positive false)
    (SIsotope carbon12) 5 (8, 7)
  = Raise Store.TypeError.
Proof.
  apply (wavelength_TypeError_not_caught store_malformed _ _ _ _ w529_1).
  left. vm_compute. reflexivity.
Defined.

(** The list model of the file system does what the source relies on. *)
Lemma list_isdir_cons fs p q :
  list_isdir fs q = true → list_isdir (p :: fs) q = true.
Proof. unfold list_isdir. simpl. intros ->. apply orb_true_r. Qed.

Lemma list_makedirs_isdir fs p fs' :
  list_makedirs fs p = (Ok (), fs') → list_isdir fs' p = true.
Proof.
  unfold list_makedirs. destruct (list_isdir fs p); [discriminate|].
  intros [= <-]. unfold list_isdir. simpl. by rewrite String.eqb_refl.
Qed.

Lemma list_makedirs_keeps fs p r fs' q :
  list_makedirs fs p = (r, fs') → list_isdir fs q = true → list_isdir fs' q = true.
Proof.
  unfold list_makedirs. destruct (list_isdir fs p); intros [= <- <-]; [done|].
  apply list_isdir_cons.
Qed.

Lemma quota_makedirs_isdir n fs p fs' :
  quota_makedirs n fs p = (Ok (), fs') → list_isdir fs' p = true.
Proof.
  unfold quota_makedirs. destruct (n <=? length fs)%nat; [discriminate|].
  apply list_makedirs_isdir.
Qed.

Lemma quota_makedirs_keeps n fs p r fs' q :
  quota_makedirs n fs p = (r, fs') → list_isdir fs q = true → list_isdir fs' q = true.
Proof.
  unfold quota_makedirs. destruct (n <=? length fs)%nat; [by intros [= <- <-]|].
  apply list_makedirs_keeps.
Qed.

(** A first construction on an empty file system. *)
Lemma setup_data_path_makes_directories_witness :
  _setup_data_path home_expanduser list_isdir list_makedirs []
  = (Ok "/home/user/.cherab/openadas",
     ["/home/user/.cherab/openadas/adf22"; "/home/user/.cherab/openadas/adf21";
      "/home/user/.cherab/openadas/adf15"; "/home/user/.cherab/openadas/adf12";
      "/home/user/.cherab/openadas"])
  ∧ list_isdir
      ["/home/user/.cherab/openadas/adf22"; "/home/user/.cherab/openadas/adf21";
       "/home/user/.cherab/openadas/adf15"; "/home/user/.cherab/openadas/adf12";
       "/home/user/.cherab/openadas"]
      (path_join (home_expanduser "~/.cherab/openadas") "adf15") = true.
Proof.
  assert (_setup_data_path home_expanduser list_isdir list_makedirs []
          = (Ok "/home/user/.cherab/openadas",
             ["/home/user/.cherab/openadas/adf22"; "/home/user/.cherab/openadas/adf21";
              "/home/user/.cherab/openadas/adf15"; "/home/user/.cherab/openadas/adf12";
              "/home/user/.cherab/openadas"])) as H by (vm_compute; reflexivity).
  split; [exact H|].
  destruct (setup_data_path_makes_directories home_expanduser list_isdir list_makedirs
              list_makedirs_isdir list_makedirs_keeps _ _ _ H) as (_ & _ & _ & Hsub).
  apply Hsub. vm_compute. reflexivity.
Defined.

(** The data directory is there without its subdirectories. *)
Lemma setup_data_path_idempotent_witness :
  _setup_data_path home_expanduser list_isdir list_makedirs ["/home/user/.cherab/openadas"]
  = (Ok "/home/user/.cherab/openadas", ["/home/user/.cherab/openadas"]).
Proof.
  apply (proj1 (setup_data_path_idempotent home_expanduser list_isdir list_makedirs
                  list_makedirs_isdir list_makedirs_keeps
                  ["/home/user/.cherab/openadas"])).
  vm_compute. reflexivity.
Defined.

(** Room for two directories: the set-up fails on [adf15]; the next call
    returns although [adf15], [adf21] and [adf22] are missing. *)
Lemma setup_data_path_after_failure_witness :
  _setup_data_path home_expanduser list_isdir (quota_makedirs 2) []
  = (Raise (Exc "OSError" [ArgStr "/home/user/.cherab/openadas/adf15"]),
     ["/home/user/.cherab/openadas/adf12"; "/home/user/.cherab/openadas"])
  ∧ _setup_data_path home_expanduser list_isdir (quota_makedirs 2)
      ["/home/user/.cherab/openadas/adf12"; "/home/user/.cherab/openadas"]
    = (Ok "/home/user/.cherab/openadas",
       ["/home/user/.cherab/openadas/adf12"; "/home/user/.cherab/openadas"]).
Proof.
  assert (_setup_data_path home_expanduser list_isdir (quota_makedirs 2) []
          = (Raise (Exc "OSError" [ArgStr "/home/user/.cherab/openadas/adf15"]),
             ["/home/user/.cherab/openadas/adf12"; "/home/user/.cherab/openadas"]))
    as H by (vm_compute; reflexivity).
  split; [exact H|].
  refine (proj2 (setup_data_path_after_failure home_expanduser list_isdir (quota_makedirs 2)
                   (quota_makedirs_isdir 2) (quota_makedirs_keeps 2)
                   [] ["/home/user/.cherab/openadas"] _ _ _ _ H));
    vm_compute; reflexivity.
Defined.

Lemma init_data_path_witness :
  __init__ home_expanduser list_isdir list_makedirs [] (Some "/data") empty_config true
  = (Ok (mkOpenADAS "/data" empty_config true), [])
  ∧ __init__ home_expanduser list_isdir list_makedirs [] (Some "") empty_config true
    = __init__ home_expanduser list_isdir list_makedirs [] None empty_config true.
Proof.
  destruct (init_data_path home_expanduser list_isdir list_makedirs [] empty_config true)
    as (Hgiven & Hempty & _).
  split; [apply Hgiven|apply Hempty].
Defined.

Lemma wavelength_Ok_iff_witness :
  wavelength adas_wavelength (SIsotope carbon12) 5 (8, 7) = Ok w529_1.
Proof.
  apply (proj2 (wavelength_Ok_iff adas_wavelength (SIsotope carbon12) 5 (8, 7) w529_1)).
  right. split; vm_compute; reflexivity.
Defined.

(** The files of the scenario filed once more under deuterium. *)
Lemma isotope_keyed_bms_entry_is_unread_witness :
  beam_stopping_rate read_adf21 (Curve := FileCurve)
    (with_bms adas_full
       (<[SIsotope deuterium := {[ SElement carbon := {[ 6 := "other.dat" ]} ]}]> bms_h_c6))
    (SIsotope deuterium) (SElement carbon) 6
  = beam_stopping_rate read_adf21 adas_full (SIsotope deuterium) (SElement carbon) 6.
Proof.
  apply (isotope_keyed_bms_entry_is_unread read_adf21 adas_full bms_h_c6 deuterium).
  reflexivity.
Defined.
